(** * NHLScores: schedule fetcher, logo cache resolver and batch converter

    A shallow embedding of [NHLscores.py] ([ensure_logo_cached],
    [fetch_games], the start-up code and the callbacks of the window) and
    of the script [convert_logos.py], followed by the properties of the
    specification that concern them and by further properties read off
    the code.  Module [NHLscores] takes a standard output that accepts
    every text; module [Stdout] embeds the same functions with the
    standard output as a parameter, where a [print] can raise.

    Python values coming out of [response.json()] are the inductive type
    [pyval]; the file system, the network and the two SVG converters are
    an explicit state ([world]) driven by an [environment] of outcomes;
    exceptions are the [Raise] constructor of [result].  JSON floats are
    not part of [pyval]: no operation of the two scripts distinguishes
    them from integers other than through their printed form. *)

From stdpp Require Import base option list strings gmap pretty.
From Stdlib Require Import ZArith Lia Ascii.

Set Warnings "-register-all".
Open Scope string_scope.

(** ** Python values and the built-in operations the scripts use *)

Module Py.

Inductive exn : Type :=
| AttributeError
| TypeError
| KeyError
| ValueError
| UnicodeEncodeError
| OSError
| ImportError
| EOFError
| OtherError (msg : string).

Inductive result (A : Type) : Type :=
| Ret (a : A)
| Raise (e : exn).
Arguments Ret {A} a.
Arguments Raise {A} e.

Definition is_ret {A} (r : result A) : bool :=
  match r with Ret _ => true | Raise _ => false end.

Definition result_map {A B} (f : A -> B) (r : result A) : result B :=
  match r with Ret a => Ret (f a) | Raise e => Raise e end.

Inductive pyval : Type :=
| PNone
| PBool (b : bool)
| PInt (n : Z)
| PStr (s : string)
| PList (xs : list pyval)
| PDict (kvs : list (string * pyval)).

(** [bool(v)]: the truth value used by [if], [not], [and], [or]. *)
Definition py_truthy (v : pyval) : bool :=
  match v with
  | PNone => false
  | PBool b => b
  | PInt n => negb (n =? 0)%Z
  | PStr s => negb (String.eqb s "")
  | PList xs => match xs with [] => false | _ => true end
  | PDict kvs => match kvs with [] => false | _ => true end
  end.

(** [a or b] *)
Definition py_or (a b : pyval) : pyval := if py_truthy a then a else b.

(** [v is not None] *)
Definition is_not_none (v : pyval) : bool :=
  match v with PNone => false | _ => true end.

(** [v == s] for a [str] s: only an equal string compares equal. *)
Definition py_eqb_str (s : string) (v : pyval) : bool :=
  match v with PStr s' => String.eqb s' s | _ => false end.

(** A dict is the list of its items in insertion order; a lookup takes
    the first item with the key (the keys of a Python dict are distinct). *)
Fixpoint dict_lookup (k : string) (kvs : list (string * pyval)) : option pyval :=
  match kvs with
  | [] => None
  | (k', v) :: rest => if String.eqb k' k then Some v else dict_lookup k rest
  end.

(** [d.get(k, dflt)] on a dict. *)
Definition dict_get (kvs : list (string * pyval)) (k : string) (dflt : pyval) : pyval :=
  match dict_lookup k kvs with
  | Some v => v
  | None => dflt
  end.

(** [v.get(k, dflt)]: only dicts have the method. *)
Definition py_get (v : pyval) (k : string) (dflt : pyval) : result pyval :=
  match v with
  | PDict kvs => Ret (dict_get kvs k dflt)
  | _ => Raise AttributeError
  end.

(** The strings of the scripts are compared and cut with these. *)
Fixpoint str_contains (needle s : string) : bool :=
  String.prefix needle s ||
  match s with
  | EmptyString => false
  | String _ s' => str_contains needle s'
  end.

Definition str_endswith (suffix s : string) : bool :=
  let n := String.length s in
  let k := String.length suffix in
  (k <=? n)%nat && String.eqb (String.substring (n - k) k s) suffix.

(** [s.replace(old, new)] for a non-empty [old]: occurrences are found
    left to right and do not overlap; [skip] counts the characters of a
    matched occurrence still to be dropped. *)
Fixpoint replace_go (old new : string) (skip : nat) (s : string) : string :=
  match s with
  | EmptyString => EmptyString
  | String c s' =>
      match skip with
      | S k => replace_go old new k s'
      | O =>
          if String.prefix old s
          then new +:+ replace_go old new (String.length old - 1) s'
          else String c (replace_go old new 0 s')
      end
  end.

Definition str_replace (old new s : string) : string := replace_go old new 0 s.

(** [s.lower()] on the ASCII letters; the scripts only compare the result
    with ASCII constants. *)
Definition ascii_lower (c : Ascii.ascii) : Ascii.ascii :=
  let n := Ascii.nat_of_ascii c in
  if (65 <=? n)%nat && (n <=? 90)%nat then Ascii.ascii_of_nat (n + 32) else c.

Fixpoint str_lower (s : string) : string :=
  match s with
  | EmptyString => EmptyString
  | String c s' => String (ascii_lower c) (str_lower s')
  end.

Fixpoint str_chars (s : string) : list pyval :=
  match s with
  | EmptyString => []
  | String c s' => PStr (String c EmptyString) :: str_chars s'
  end.

Fixpoint str_join (sep : string) (parts : list string) : string :=
  match parts with
  | [] => ""
  | [p] => p
  | p :: rest => p +:+ sep +:+ str_join sep rest
  end.

(** [k in c] for a [str] k. *)
Definition py_contains (k : string) (c : pyval) : result bool :=
  match c with
  | PDict kvs => Ret (bool_decide (is_Some (dict_lookup k kvs)))
  | PList xs => Ret (existsb (py_eqb_str k) xs)
  | PStr s => Ret (str_contains k s)
  | _ => Raise TypeError
  end.

(** [c[k]] for a [str] k. *)
Definition py_subscript (c : pyval) (k : string) : result pyval :=
  match c with
  | PDict kvs =>
      match dict_lookup k kvs with
      | Some v => Ret v
      | None => Raise KeyError
      end
  | _ => Raise TypeError
  end.

(** The items a [for] loop over [c] visits. *)
Definition py_iter (c : pyval) : result (list pyval) :=
  match c with
  | PList xs => Ret xs
  | PDict kvs => Ret (map (fun kv => PStr (fst kv)) kvs)
  | PStr s => Ret (str_chars s)
  | _ => Raise TypeError
  end.

Section Formatting.
(** [repr] of a [str] (quoting and escapes) is the interpreter's. *)
Variable repr_str : string -> string.

Fixpoint py_repr (v : pyval) : string :=
  match v with
  | PNone => "None"
  | PBool true => "True"
  | PBool false => "False"
  | PInt n => pretty n
  | PStr s => repr_str s
  | PList xs => "[" +:+ str_join ", " (map py_repr xs) +:+ "]"
  | PDict kvs =>
      "{" +:+ str_join ", "
               (map (fun kv => let '(k, x) := kv in
                               repr_str k +:+ ": " +:+ py_repr x) kvs)
          +:+ "}"
  end.

(** What an f-string field [{v}] prints: [str(v)]. *)
Definition py_str (v : pyval) : string :=
  match v with
  | PStr s => s
  | _ => py_repr v
  end.
End Formatting.

End Py.

(** ** [NHLscores.py] *)

Module NHLscores.
Import Py.

Definition bytes : Type := list Byte.byte.

(** A [datetime]: the calendar date, the time of day and
    [utcoffset()] in seconds ([None] for a naive value).  The conversion
    to the local zone reads all of them (the offset of a zone depends on
    the date); [strftime('%I:%M %p')] reads the hour and the minute, whose
    ranges the type keeps. *)
Record datetime : Type := {
  dt_year : nat;
  dt_month : nat;
  dt_day : nat;
  dt_hour : nat;
  dt_minute : nat;
  dt_second : nat;
  dt_microsecond : nat;
  dt_utcoffset : option Z;
  dt_hour_ok : (dt_hour <? 24)%nat = true;
  dt_minute_ok : (dt_minute <? 60)%nat = true;
}.

(** What the interpreter, its libraries and the import block at the top
    of the script (lines 8-30) fix before any function runs. *)
Record platform : Type := {
  repr_str : string -> string;
  (** [urlparse(u).path]; [urlparse] raises [ValueError] on some strings *)
  urlparse_path : string -> result string;
  os_path_splitext : string -> string * string;
  os_path_join : string -> string -> string;
  SCRIPT_DIR : string;
  (** [cairosvg is not None] *)
  cairosvg_loaded : bool;
  svglib_available : bool;
  (** [datetime.fromisoformat] and [datetime.astimezone()] (local zone) *)
  fromisoformat : string -> result datetime;
  astimezone : datetime -> result datetime;
}.

Inductive cairo_source : Type :=
| CairoUrl (path : string)
| CairoBytes (content : bytes).

(** A failed [open]/[write] may leave the path untouched ([None]) or hold
    a truncated file. *)
Inductive write_outcome : Type :=
| WriteOk
| WriteFail (msg : string) (residue : option bytes).

(** The outcome of every call that leaves the process, at the moment
    [t] it is made ([t] is the number of events so far).  [inl msg] is an
    exception with text [msg]. *)
Record environment : Type := {
  requests_get_content : nat -> string -> string + bytes;
  requests_get_json : nat -> string -> result pyval;
  cairosvg_svg2png : nat -> cairo_source -> string + bytes;
  svglib_render : nat -> string -> string + bytes;
  open_write : nat -> string -> bytes -> write_outcome;
}.

Inductive event : Type :=
| EvPrint (msg : string)
| EvHttpGet (url : string) (ok : bool)
| EvCairo (src : cairo_source) (dst : string) (ok : bool)
| EvSvglib (src dst : string) (ok : bool)
| EvWrite (path : string) (ok : bool).

(** The files on disk, each under the path string the program hands to
    the operating system (two spellings of one file are two keys), and
    everything done so far, oldest first. *)
Record world : Type := {
  fs : gmap string bytes;
  trace : list event;
}.

Definition M (A : Type) : Type := world -> result A * world.

Definition ret {A} (a : A) : M A := fun w => (Ret a, w).

Definition bind {A B} (c : M A) (k : A -> M B) : M B :=
  fun w =>
    match c w with
    | (Ret a, w') => k a w'
    | (Raise e, w') => (Raise e, w')
    end.

Definition lift {A} (r : result A) : M A := fun w => (r, w).

Definition rbind {A B} (r : result A) (k : A -> result B) : result B :=
  match r with Ret a => k a | Raise e => Raise e end.

Declare Scope py_scope.
Delimit Scope py_scope with py.
Notation "x <- c ;; k" := (bind c (fun x => k))
  (at level 100, c at next level, right associativity) : py_scope.
Notation "c ;;; k" := (bind c (fun _ => k))
  (at level 100, right associativity) : py_scope.
Open Scope py_scope.

(** A [for] loop whose body updates the accumulated locals. *)
Fixpoint for_each {A S} (body : A -> S -> M S) (xs : list A) (s : S) : M S :=
  match xs with
  | [] => ret s
  | x :: rest => s' <- body x s ;; for_each body rest s'
  end.

(** [strftime('%I:%M %p')] in the C locale, which the script never
    changes. *)
Definition two_digits (n : nat) : string :=
  if (n <? 10)%nat then "0" +:+ pretty n else pretty n.

Definition clock_string (hour minute : nat) : string :=
  let h := (hour mod 12)%nat in
  two_digits (if (h =? 0)%nat then 12%nat else h) +:+ ":" +:+
  two_digits minute +:+ " " +:+
  (if (hour <? 12)%nat then "AM" else "PM").

Definition strftime_I_M_p (t : datetime) : string :=
  clock_string (dt_hour t) (dt_minute t).

(** Whether a guarded call came back ([inr]) or raised ([inl]). *)
Definition came_back {A B} (r : A + B) : bool :=
  match r with inl _ => false | inr _ => true end.

Definition set_trace (w : world) (t : list event) : world :=
  {| fs := fs w; trace := t |}.

Record game_record : Type := {
  away_abbrev : pyval;
  home_abbrev : pyval;
  away_score : pyval;
  home_score : pyval;
  away_logo : option string;
  home_logo : option string;
  is_scheduled : bool;
  start_time : option string;
}.

Section Program.
Variable P : platform.
Variable E : environment.

Definition now (w : world) : nat := length (trace w).

Definition emit (e : event) : M unit :=
  fun w => (Ret tt, set_trace w (trace w ++ [e])%list).

(** [print(msg)] on a standard output that accepts every text; module
    [Stdout] below has a standard output that may refuse one. *)
Definition print (msg : string) : M unit := emit (EvPrint msg).

(** [os.path.exists(p)] *)
Definition path_exists (p : string) : M bool :=
  fun w => (Ret (bool_decide (is_Some (fs w !! p))), w).

(** [requests.get(url, timeout=20)], [raise_for_status()], [.content],
    inside [try]. *)
Definition requests_get (url : string) : M (string + bytes) :=
  fun w =>
    let r := requests_get_content E (now w) url in
    (Ret r, set_trace w (trace w ++ [EvHttpGet url (came_back r)])).

(** [cairosvg.svg2png(..., write_to=dst)] inside [try]. *)
Definition cairo_svg2png (src : cairo_source) (dst : string) : M (string + unit) :=
  fun w =>
    match cairosvg_svg2png E (now w) src with
    | inl msg => (Ret (inl msg), set_trace w (trace w ++ [EvCairo src dst false]))
    | inr png =>
        (Ret (inr tt),
         {| fs := <[dst := png]> (fs w);
            trace := trace w ++ [EvCairo src dst true] |})
    end.

(** [svg2rlg(src)] then [renderPM.drawToFile(drawing, dst, fmt="PNG")]
    inside [try]. *)
Definition svglib_convert (src dst : string) : M (string + unit) :=
  fun w =>
    match svglib_render E (now w) src with
    | inl msg => (Ret (inl msg), set_trace w (trace w ++ [EvSvglib src dst false]))
    | inr png =>
        (Ret (inr tt),
         {| fs := <[dst := png]> (fs w);
            trace := trace w ++ [EvSvglib src dst true] |})
    end.

(** [with open(path, 'wb') as f: f.write(content)] inside [try]. *)
Definition write_file (path : string) (content : bytes) : M (string + unit) :=
  fun w =>
    match open_write E (now w) path content with
    | WriteOk =>
        (Ret (inr tt),
         {| fs := <[path := content]> (fs w);
            trace := trace w ++ [EvWrite path true] |})
    | WriteFail msg residue =>
        (Ret (inl msg),
         {| fs := match residue with
                  | Some b => <[path := b]> (fs w)
                  | None => fs w
                  end;
            trace := trace w ++ [EvWrite path false] |})
    end.

Definition LOGO_DIR : string := os_path_join P (SCRIPT_DIR P) "logos".

Definition logo_file (name : string) : string := os_path_join P LOGO_DIR name.

Definition fmt (v : pyval) : string := py_str (repr_str P) v.

(** [abbrev] and [logo_url] as lines 43-47 compute them. *)
Definition team_abbrev (team_obj : pyval) : pyval :=
  match team_obj with
  | PDict kvs => dict_get kvs "abbrev" PNone
  | _ => PNone
  end.

Definition team_logo_url (team_obj : pyval) : pyval :=
  match team_obj with
  | PDict kvs => py_or (dict_get kvs "darkLogo" PNone) (dict_get kvs "logo" PNone)
  | _ => PNone
  end.

Definition png_path_of (abbrev : pyval) : string := logo_file (fmt abbrev +:+ ".png").
Definition svg_path_of (abbrev : pyval) : string := logo_file (fmt abbrev +:+ ".svg").

(** A [try] block that ends in [return png_path]: [Some p] when the
    function returned [p] there, [None] when control goes on. *)
Definition go_on : M (option string) := ret None.

(** Lines 65-91: a cached SVG exists. *)
Definition convert_existing (abbrev : pyval) : M (option string) :=
  let png_path := png_path_of abbrev in
  let svg_path := svg_path_of abbrev in
  r1 <- (if cairosvg_loaded P then
           print ("Converting existing " +:+ fmt abbrev +:+ ".svg to PNG with cairosvg...") ;;;
           c <- cairo_svg2png (CairoUrl svg_path) png_path ;;
           match c with
           | inr _ =>
               print ("Successfully converted " +:+ fmt abbrev +:+ ".svg to PNG") ;;;
               ret (Some png_path)
           | inl e =>
               print ("Warning: cairosvg conversion failed for " +:+ fmt abbrev +:+ ": " +:+ e) ;;;
               go_on
           end
         else go_on) ;;
  match r1 with
  | Some p => ret (Some p)
  | None =>
      r2 <- (if svglib_available P then
               print ("Converting existing " +:+ fmt abbrev +:+ ".svg to PNG with svglib...") ;;;
               c <- svglib_convert svg_path png_path ;;
               match c with
               | inr _ =>
                   print ("Successfully converted " +:+ fmt abbrev +:+ ".svg to PNG") ;;;
                   ret (Some png_path)
               | inl e =>
                   print ("Warning: svglib conversion failed for " +:+ fmt abbrev +:+ ": " +:+ e) ;;;
                   go_on
               end
             else go_on) ;;
      match r2 with
      | Some p => ret (Some p)
      | None =>
          (if negb (cairosvg_loaded P) && negb (svglib_available P) then
             print ("Warning: " +:+ fmt abbrev +:+ ".svg exists but no SVG converter is available.") ;;;
             print "Install with: pip install svglib reportlab"
           else ret tt) ;;;
          ret None
      end
  end.

(** Lines 103-127: the downloaded asset is an SVG. *)
Definition convert_downloaded (abbrev : pyval) (content : bytes) : M (option string) :=
  let png_path := png_path_of abbrev in
  r1 <- (if cairosvg_loaded P then
           print ("Converting downloaded " +:+ fmt abbrev +:+ " SVG to PNG with cairosvg...") ;;;
           c <- cairo_svg2png (CairoBytes content) png_path ;;
           match c with
           | inr _ =>
               print ("Successfully converted " +:+ fmt abbrev +:+ " SVG to PNG") ;;;
               ret (Some png_path)
           | inl e =>
               print ("Warning: cairosvg conversion failed for " +:+ fmt abbrev +:+ ": " +:+ e) ;;;
               go_on
           end
         else go_on) ;;
  match r1 with
  | Some p => ret (Some p)
  | None =>
      if svglib_available P then
        let svg_temp := svg_path_of abbrev in
        wr <- write_file svg_temp content ;;
        match wr with
        | inl e =>
            print ("Warning: svglib conversion failed for " +:+ fmt abbrev +:+ ": " +:+ e) ;;;
            go_on
        | inr _ =>
            print ("Converting downloaded " +:+ fmt abbrev +:+ " SVG to PNG with svglib...") ;;;
            c <- svglib_convert svg_temp png_path ;;
            match c with
            | inr _ =>
                print ("Successfully converted " +:+ fmt abbrev +:+ " SVG to PNG") ;;;
                ret (Some png_path)
            | inl e =>
                print ("Warning: svglib conversion failed for " +:+ fmt abbrev +:+ ": " +:+ e) ;;;
                go_on
            end
        end
      else go_on
  end.

Definition is_raster_ext (ext : string) : bool :=
  let e := str_lower ext in
  String.eqb e ".png" || String.eqb e ".jpg" || String.eqb e ".jpeg".

(** Lines 93-142: no cached PNG and no cached SVG. *)
Definition download_and_store (abbrev : pyval) (logo_url ext : string) : M (option string) :=
  d <- requests_get logo_url ;;
  match d with
  | inl e =>
      print ("Warning: Failed to download logo for " +:+ fmt abbrev +:+ ": " +:+ e) ;;;
      ret None
  | inr content =>
      r <- (if String.eqb (str_lower ext) ".svg"
            then convert_downloaded abbrev content
            else go_on) ;;
      match r with
      | Some p => ret (Some p)
      | None =>
          let src_path := logo_file (fmt abbrev +:+ ext) in
          wr <- write_file src_path content ;;
          match wr with
          | inl _ => ret None
          | inr _ => if is_raster_ext ext then ret (Some src_path) else ret None
          end
      end
  end.

(** Lines 52-54: the extension of the URL's path, [".svg"] if none. *)
Definition ext_of (path : string) : string :=
  let ext := snd (os_path_splitext P path) in
  if String.eqb ext "" then ".svg" else ext.

(** Lines 42-142.  [urlparse] of a value that is not a [str] raises
    [AttributeError] (it has no [decode]). *)
Definition ensure_logo_cached (team_obj : pyval) : M (option string) :=
  let abbrev := team_abbrev team_obj in
  let logo_url := team_logo_url team_obj in
  if negb (py_truthy abbrev) || negb (py_truthy logo_url) then ret None
  else
    match logo_url with
    | PStr url =>
        path <- lift (urlparse_path P url) ;;
        let ext := ext_of path in
        has_png <- path_exists (png_path_of abbrev) ;;
        if has_png then ret (Some (png_path_of abbrev))
        else
          has_svg <- path_exists (svg_path_of abbrev) ;;
          if has_svg then convert_existing abbrev
          else download_and_store abbrev url ext
    | _ => lift (Raise AttributeError)
    end.

(** Lines 196-200, the body of the [try]. *)
Definition local_clock (start_time_utc : pyval) : result string :=
  rbind (match start_time_utc with
         | PStr s => Ret (str_replace "Z" "+00:00" s)
         | _ => Raise AttributeError
         end) (fun iso =>
  rbind (fromisoformat P iso) (fun utc_time =>
  rbind (astimezone P utc_time) (fun local_time =>
  Ret (strftime_I_M_p local_time)))).

(** Lines 194-202. *)
Definition time_display_of (start_time_utc : pyval) : string :=
  if py_truthy start_time_utc then
    match local_clock start_time_utc with
    | Ret s => s
    | Raise _ => "TBD"
    end
  else "TBD".

(** Lines 179-214: the summary line and the record of one game. *)
Definition game_entry (away_team home_team away_score home_score start_time_utc : pyval)
    (away_logo home_logo : option string) : string * game_record :=
  if is_not_none away_score && is_not_none home_score then
    (fmt away_team +:+ " vs " +:+ fmt home_team +:+ " - " +:+
       fmt away_score +:+ ":" +:+ fmt home_score,
     {| away_abbrev := away_team; home_abbrev := home_team;
        away_score := away_score; home_score := home_score;
        away_logo := away_logo; home_logo := home_logo;
        is_scheduled := false; start_time := None |})
  else
    let time_display := time_display_of start_time_utc in
    (fmt away_team +:+ " vs " +:+ fmt home_team +:+ " - " +:+ time_display,
     {| away_abbrev := away_team; home_abbrev := home_team;
        away_score := PNone; home_score := PNone;
        away_logo := away_logo; home_logo := home_logo;
        is_scheduled := true; start_time := Some time_display |}).

(** The locals [lines] and [games_data]. *)
Definition outputs : Type := list string * list game_record.

(** Lines 162-214: the body of the loop over the games of a day. *)
Definition process_game (game : pyval) (acc : outputs) : M outputs :=
  away_team_obj <- lift (py_get game "awayTeam" (PDict [])) ;;
  home_team_obj <- lift (py_get game "homeTeam" (PDict [])) ;;
  away_team <- lift (py_get away_team_obj "abbrev" PNone) ;;
  home_team <- lift (py_get home_team_obj "abbrev" PNone) ;;
  a_score <- lift (py_get away_team_obj "score" PNone) ;;
  h_score <- lift (py_get home_team_obj "score" PNone) ;;
  start_time_utc <- lift (py_get game "startTimeUTC" PNone) ;;
  game_state <- lift (py_get game "gameState" (PStr "")) ;;
  a_logo <- ensure_logo_cached away_team_obj ;;
  h_logo <- ensure_logo_cached home_team_obj ;;
  let entry := game_entry away_team home_team a_score h_score start_time_utc a_logo h_logo in
  ret ((fst acc ++ [fst entry])%list, (snd acc ++ [snd entry])%list).

(** Lines 155-214: the body of the loop over the days. *)
Definition process_day (date_str : string) (day : pyval) (acc : outputs) : M outputs :=
  day_date <- lift (py_get day "date" PNone) ;;
  if negb (py_eqb_str date_str day_date) then ret acc
  else
    has_games <- lift (py_contains "games" day) ;;
    if has_games then
      games <- lift (rbind (py_subscript day "games") py_iter) ;;
      for_each process_game games acc
    else ret acc.

(** Lines 150-216: [fetch_games] once [data = response.json()] is known. *)
Definition fetch_games_on (date_str : string) (data : pyval) : M outputs :=
  has_week <- lift (py_contains "gameWeek" data) ;;
  week <- (if has_week then lift (py_subscript data "gameWeek") else ret PNone) ;;
  if has_week && py_truthy week then
    days <- lift (py_iter week) ;;
    for_each (process_day date_str) days ([], [])
  else ret ([], []).

Definition fetch_games (date_str : string) : M outputs :=
  fun w =>
    match requests_get_json E (now w) ("https://api-web.nhle.com/v1/schedule/" +:+ date_str) with
    | Ret data => fetch_games_on date_str data w
    | Raise e => (Raise e, w)
    end.
End Program.

(** *** A concrete platform and environment

    POSIX paths, plain [scheme://host/path?query#fragment] URLs, the ISO
    form [YYYY-MM-DDTHH:MM:SS+00:00] and a local zone equal to UTC: enough
    to run the functions above on concrete inputs. *)

Fixpoint rfind_go (c : Ascii.ascii) (s : string) (i : nat) (last : option nat) : option nat :=
  match s with
  | EmptyString => last
  | String c' s' => rfind_go c s' (S i) (if Ascii.eqb c' c then Some i else last)
  end.

Definition rfind (c : Ascii.ascii) (s : string) : option nat := rfind_go c s 0 None.

Fixpoint all_dots (s : string) : bool :=
  match s with
  | EmptyString => true
  | String c s' => Ascii.eqb c "."%char && all_dots s'
  end.

(** [posixpath.splitext]: the extension starts at the last dot of the
    last component, unless only dots precede it there. *)
Definition posix_splitext (p : string) : string * string :=
  let start := match rfind "/"%char p with Some i => S i | None => 0%nat end in
  match rfind "."%char p with
  | Some dot =>
      if (start <=? dot)%nat && negb (all_dots (String.substring start (dot - start) p))
      then (String.substring 0 dot p, String.substring dot (String.length p - dot) p)
      else (p, "")
  | None => (p, "")
  end.

(** [posixpath.join] of two components. *)
Definition posix_join (a b : string) : string :=
  if String.prefix "/" b then b
  else if String.eqb a "" || str_endswith "/" a then a +:+ b
  else a +:+ "/" +:+ b.

Fixpoint take_until (stop : Ascii.ascii -> bool) (s : string) : string :=
  match s with
  | EmptyString => EmptyString
  | String c s' => if stop c then EmptyString else String c (take_until stop s')
  end.

Fixpoint drop_until (stop : Ascii.ascii -> bool) (s : string) : string :=
  match s with
  | EmptyString => EmptyString
  | String c s' => if stop c then s else drop_until stop s'
  end.

Definition is_path_end (c : Ascii.ascii) : bool :=
  Ascii.eqb c "?"%char || Ascii.eqb c "#"%char.

Definition is_netloc_end (c : Ascii.ascii) : bool :=
  Ascii.eqb c "/"%char || is_path_end c.

Definition plain_url_path (u : string) : result string :=
  match String.index 0 "://" u with
  | Some i =>
      let rest := String.substring (i + 3) (String.length u - (i + 3)) u in
      Ret (take_until is_path_end (drop_until is_netloc_end rest))
  | None => Ret (take_until is_path_end u)
  end.

Definition simple_repr (s : string) : string := "'" +:+ s +:+ "'".

Definition digit (c : Ascii.ascii) : option nat :=
  let n := Ascii.nat_of_ascii c in
  if (48 <=? n)%nat && (n <=? 57)%nat then Some (n - 48)%nat else None.

Definition two_digit_field (i : nat) (s : string) : option nat :=
  match String.get i s, String.get (S i) s with
  | Some a, Some b =>
      match digit a, digit b with
      | Some x, Some y => Some (10 * x + y)%nat
      | _, _ => None
      end
  | _, _ => None
  end.

Definition mk_datetime (year month day h m sec : nat) (offset : option Z)
    : option datetime :=
  match (h <? 24)%nat as b return ((h <? 24)%nat = b -> option datetime) with
  | true => fun Hh =>
      match (m <? 60)%nat as b' return ((m <? 60)%nat = b' -> option datetime) with
      | true => fun Hm =>
          Some {| dt_year := year; dt_month := month; dt_day := day;
                  dt_hour := h; dt_minute := m; dt_second := sec;
                  dt_microsecond := 0; dt_utcoffset := offset;
                  dt_hour_ok := Hh; dt_minute_ok := Hm |}
      | false => fun _ => None
      end eq_refl
  | false => fun _ => None
  end eq_refl.

Definition four_digit_field (i : nat) (s : string) : option nat :=
  match two_digit_field i s, two_digit_field (i + 2) s with
  | Some hi, Some lo => Some (100 * hi + lo)%nat
  | _, _ => None
  end.

Definition date_in_range (month day sec : nat) : bool :=
  (1 <=? month)%nat && (month <=? 12)%nat && (1 <=? day)%nat && (day <=? 31)%nat &&
  (sec <? 60)%nat.

Definition utc_iso_parse (s : string) : result datetime :=
  if (String.length s =? 25)%nat
     && String.eqb (String.substring 4 1 s) "-" && String.eqb (String.substring 7 1 s) "-"
     && String.eqb (String.substring 10 1 s) "T"
     && String.eqb (String.substring 13 1 s) ":" && String.eqb (String.substring 16 1 s) ":"
     && String.eqb (String.substring 19 6 s) "+00:00"
  then
    match four_digit_field 0 s, two_digit_field 5 s, two_digit_field 8 s,
          two_digit_field 11 s, two_digit_field 14 s, two_digit_field 17 s with
    | Some year, Some month, Some day, Some h, Some m, Some sec =>
        if date_in_range month day sec then
          match mk_datetime year month day h m sec (Some 0%Z) with
          | Some t => Ret t
          | None => Raise ValueError
          end
        else Raise ValueError
    | _, _, _, _, _, _ => Raise ValueError
    end
  else Raise ValueError.

Definition demo_platform (cairo svglib : bool) : platform :=
  {| repr_str := simple_repr;
     urlparse_path := plain_url_path;
     os_path_splitext := posix_splitext;
     os_path_join := posix_join;
     SCRIPT_DIR := "/opt/nhl";
     cairosvg_loaded := cairo;
     svglib_available := svglib;
     fromisoformat := utc_iso_parse;
     astimezone := Ret |}.

(** A local zone five hours behind UTC, four from April to October: the
    local time of a timestamp depends on its date. *)
Definition is_leap (year : nat) : bool :=
  ((year mod 4 =? 0)%nat && negb (year mod 100 =? 0)%nat) || (year mod 400 =? 0)%nat.

Definition days_in_month (year month : nat) : nat :=
  match month with
  | 2 => if is_leap year then 29 else 28
  | 4 | 6 | 9 | 11 => 30
  | _ => 31
  end%nat.

Definition previous_day (year month day : nat) : nat * nat * nat :=
  if (1 <? day)%nat then (year, month, day - 1)%nat
  else if (1 <? month)%nat then (year, month - 1, days_in_month year (month - 1))%nat
  else (year - 1, 12, 31)%nat.

Definition hours_behind (month : nat) : nat :=
  if (4 <=? month)%nat && (month <=? 10)%nat then 4%nat else 5%nat.

Definition eastern_astimezone (t : datetime) : result datetime :=
  let back := hours_behind (dt_month t) in
  let '(year, month, day) :=
    if (back <=? dt_hour t)%nat then (dt_year t, dt_month t, dt_day t)
    else previous_day (dt_year t) (dt_month t) (dt_day t) in
  let hour := if (back <=? dt_hour t)%nat then (dt_hour t - back)%nat
              else (dt_hour t + 24 - back)%nat in
  match mk_datetime year month day hour (dt_minute t) (dt_second t)
                    (Some (- 3600 * Z.of_nat back)%Z) with
  | Some local_time => Ret local_time
  | None => Raise ValueError
  end.

Definition eastern_platform : platform :=
  {| repr_str := simple_repr;
     urlparse_path := plain_url_path;
     os_path_splitext := posix_splitext;
     os_path_join := posix_join;
     SCRIPT_DIR := "/opt/nhl";
     cairosvg_loaded := true;
     svglib_available := true;
     fromisoformat := utc_iso_parse;
     astimezone := eastern_astimezone |}.

(** An environment that answers the same at all times. *)
Definition steady_env (download cairo svglib : string + bytes) (wr : write_outcome)
    (schedule : result pyval) : environment :=
  {| requests_get_content := fun _ _ => download;
     requests_get_json := fun _ _ => schedule;
     cairosvg_svg2png := fun _ _ => cairo;
     svglib_render := fun _ _ => svglib;
     open_write := fun _ _ _ => wr |}.

Definition demo_png : bytes := [Byte.x89; Byte.x50; Byte.x4e; Byte.x47].
Definition demo_jpg : bytes := [Byte.xff; Byte.xd8; Byte.xff; Byte.xe0].
Definition demo_svg : bytes := [Byte.x3c; Byte.x73; Byte.x76; Byte.x67; Byte.x3e].

Definition online_env : environment :=
  steady_env (inr demo_jpg) (inr demo_png) (inr demo_png) WriteOk (Ret (PDict [])).

Definition offline_env : environment :=
  steady_env (inl "connection refused") (inl "no cairo") (inl "bad drawing")
             (WriteFail "disk full" None) (Raise (OtherError "connection refused")).

Definition empty_world : world := {| fs := ∅; trace := [] |}.

Definition mk_team (abbrev : string) (score : pyval) (logo : option string) : pyval :=
  PDict ([("abbrev", PStr abbrev); ("score", score)] ++
         match logo with Some u => [("logo", PStr u)] | None => [] end).

(** *** Reading a run *)

(** The events a call added, given the worlds before and after it. *)
Definition new_events (w w' : world) : list event :=
  drop (length (trace w)) (trace w').

Definition is_download (e : event) : bool :=
  match e with EvHttpGet _ _ => true | _ => false end.

Definition is_conversion (e : event) : bool :=
  match e with EvCairo _ _ _ | EvSvglib _ _ _ => true | _ => false end.

Definition attempt_failed (e : event) : bool :=
  match e with
  | EvCairo _ _ ok | EvSvglib _ _ ok => negb ok
  | _ => true
  end.

Definition is_warning (e : event) : bool :=
  match e with EvPrint msg => String.prefix "Warning:" msg | _ => false end.

Definition result_of {A} (c : M A) (w : world) : result A := fst (c w).
Definition world_after {A} (c : M A) (w : world) : world := snd (c w).
Definition events_of {A} (c : M A) (w : world) : list event :=
  new_events w (snd (c w)).




(** A failed download or a failed [open]/[write]. *)
Definition io_failed (e : event) : bool :=
  match e with
  | EvHttpGet _ ok | EvWrite _ ok => negb ok
  | _ => false
  end.


(** *** What the properties speak about *)

(** A run of [c] from [w]: its result, the files afterwards and the
    events it added. *)
Definition runs {A} (c : M A) (w : world) (r : result A)
    (f : gmap string bytes) (evs : list event) : Prop :=
  c w = (r, {| fs := f; trace := trace w ++ evs |}).

(** The summary lines of a call of [fetch_games], or its exception. *)
Definition lines_of (out : result (list string * list game_record) * world)
    : result (list string) :=
  result_map fst (fst out).

(** The parts of a game record of the response that [fetch_games] reads. *)
Definition game_team (side : string) (game : pyval) : pyval :=
  match game with
  | PDict kvs => dict_get kvs side (PDict [])
  | _ => PNone
  end.

Definition team_field (field : string) (team_obj : pyval) : pyval :=
  match team_obj with
  | PDict kvs => dict_get kvs field PNone
  | _ => PNone
  end.

Definition game_field (field : string) (game : pyval) : pyval :=
  match game with
  | PDict kvs => dict_get kvs field PNone
  | _ => PNone
  end.

Definition away_score_in (game : pyval) : pyval := team_field "score" (game_team "awayTeam" game).
Definition home_score_in (game : pyval) : pyval := team_field "score" (game_team "homeTeam" game).
Definition start_time_in (game : pyval) : pyval := game_field "startTimeUTC" game.

(** The games of the response that belong to the requested date, in the
    order of the response. *)
Definition list_items (v : pyval) : list pyval :=
  match v with PList xs => xs | _ => [] end.

Definition day_games (date_str : string) (day : pyval) : list pyval :=
  match day with
  | PDict kvs =>
      if py_eqb_str date_str (dict_get kvs "date" PNone)
      then match dict_lookup "games" kvs with
           | Some v => list_items v
           | None => []
           end
      else []
  | _ => []
  end.

Definition response_games (date_str : string) (data : pyval) : list pyval :=
  match data with
  | PDict kvs =>
      match dict_lookup "gameWeek" kvs with
      | Some v => flat_map (day_games date_str) (list_items v)
      | None => []
      end
  | _ => []
  end.

Definition is_empty_iterable (v : pyval) : bool :=
  match v with
  | PList [] | PDict [] => true
  | PStr s => String.eqb s ""
  | _ => false
  end.

(** A day entry of another date: a dict whose ["date"] is not the
    requested string. *)
Definition is_other_day (date_str : string) (day : pyval) : bool :=
  match day with
  | PDict kvs => negb (py_eqb_str date_str (dict_get kvs "date" PNone))
  | _ => false
  end.

Definition only_requested_day (date_str : string) (v : pyval) : pyval :=
  match v with
  | PList days => PList (List.filter (fun day => negb (is_other_day date_str day)) days)
  | _ => v
  end.

(** The response with the day entries of other dates taken out of its
    ["gameWeek"] list. *)
Definition without_other_days (date_str : string) (data : pyval) : pyval :=
  match data with
  | PDict kvs =>
      PDict (map (fun kv => (fst kv,
                             if String.eqb (fst kv) "gameWeek"
                             then only_requested_day date_str (snd kv)
                             else snd kv)) kvs)
  | _ => data
  end.

Section Reading.
Variable P : platform.

(** The exception [ensure_logo_cached] raises on a team object, if any:
    it can only come from [urlparse], before anything is read or
    written. *)
Definition logo_lookup_error (team_obj : pyval) : option exn :=
  if negb (py_truthy (team_abbrev team_obj)) || negb (py_truthy (team_logo_url team_obj))
  then None
  else
    match team_logo_url team_obj with
    | PStr url =>
        match urlparse_path P url with
        | Ret _ => None
        | Raise e => Some e
        end
    | _ => Some AttributeError
    end.

(** The responses on which [fetch_games] returns: every [.get] is
    called on a dict, every loop runs over a list (or over nothing),
    and [urlparse] accepts the logo URLs it is given.  The start time
    of a game plays no part. *)
Definition team_ok (team_obj : pyval) : bool :=
  match team_obj with
  | PDict _ =>
      match logo_lookup_error team_obj with None => true | Some _ => false end
  | _ => false
  end.

Definition game_ok (game : pyval) : bool :=
  match game with
  | PDict _ => team_ok (game_team "awayTeam" game) && team_ok (game_team "homeTeam" game)
  | _ => false
  end.

Definition games_ok (v : pyval) : bool :=
  match v with
  | PList games => forallb game_ok games
  | _ => is_empty_iterable v
  end.

Definition day_ok (date_str : string) (day : pyval) : bool :=
  match day with
  | PDict kvs =>
      if py_eqb_str date_str (dict_get kvs "date" PNone)
      then match dict_lookup "games" kvs with
           | Some v => games_ok v
           | None => true
           end
      else true
  | _ => false
  end.

Definition response_ok (date_str : string) (data : pyval) : bool :=
  match data with
  | PDict kvs =>
      match dict_lookup "gameWeek" kvs with
      | Some (PList days) => forallb (day_ok date_str) days
      | Some v => negb (py_truthy v)
      | None => true
      end
  | PList xs => negb (existsb (py_eqb_str "gameWeek") xs)
  | PStr s => negb (str_contains "gameWeek" s)
  | _ => false
  end.

(** The line and the record [fetch_games] makes of a game, given the
    two logo paths. *)
Definition entry_of (game : pyval) (a_logo h_logo : option string) : string * game_record :=
  game_entry P
    (team_field "abbrev" (game_team "awayTeam" game))
    (team_field "abbrev" (game_team "homeTeam" game))
    (away_score_in game) (home_score_in game) (start_time_in game)
    a_logo h_logo.

Definition made_from (game : pyval) (entry : string * game_record) : Prop :=
  exists a_logo h_logo, entry = entry_of game a_logo h_logo.



End Reading.

(** *** Concrete worlds and responses *)

Definition jpg_path : string := "/opt/nhl/logos/AAA.jpg".
Definition png_path : string := "/opt/nhl/logos/AAA.png".
Definition svg_path : string := "/opt/nhl/logos/AAA.svg".
Definition jpg_url : string := "https://assets.example.org/logos/AAA.jpg".
Definition svg_url : string := "https://assets.example.org/logos/AAA_dark.svg".
Definition stale_jpg : bytes := [Byte.xff; Byte.xd8].

(** [AAA.jpg] was stored by an earlier call. *)
Definition jpg_cached_world : world :=
  {| fs := {[ jpg_path := stale_jpg ]}; trace := [] |}.

Definition png_cached_world : world :=
  {| fs := {[ png_path := demo_png ]}; trace := [] |}.

Definition svg_cached_world : world :=
  {| fs := {[ svg_path := demo_svg ]}; trace := [] |}.


Definition mk_game (away home : pyval) (start : option string) : pyval :=
  PDict ([("awayTeam", away); ("homeTeam", home)] ++
         match start with Some t => [("startTimeUTC", PStr t)] | None => [] end).

Definition demo_date : string := "2024-01-15".

Definition finished_game : pyval :=
  mk_game (mk_team "AAA" (PInt 3) None) (mk_team "BBB" (PInt 2) None) (Some "2024-01-15T00:00:00Z").

Definition finished_response : pyval :=
  PDict [("gameWeek", PList [PDict [("date", PStr demo_date);
                                    ("games", PList [finished_game])]])].

(** Five games on the requested date (finished, upcoming with a good
    and with a bad start time, upcoming without one, one with a single
    score) and one on the next day. *)
Definition mixed_response : pyval :=
  PDict [("gameWeek", PList [
    PDict [("date", PStr demo_date);
           ("games", PList [
              finished_game;
              mk_game (mk_team "CCC" PNone None) (mk_team "DDD" PNone None) (Some "2024-01-15T19:30:00Z");
              mk_game (mk_team "EEE" PNone None) (mk_team "FFF" PNone None) (Some "tonight");
              mk_game (mk_team "GGG" PNone None) (mk_team "HHH" PNone None) None;
              mk_game (mk_team "III" (PInt 1) None) (mk_team "JJJ" PNone None) None])];
    PDict [("date", PStr "2024-01-16");
           ("games", PList [
              mk_game (mk_team "KKK" (PInt 4) (Some jpg_url)) (mk_team "LLL" (PInt 0) None) None])]])].


(** Two upcoming games listed under the requested date, one starting in
    winter and one in summer at the same UTC time of day, and one starting
    shortly after midnight UTC. *)
Definition seasons_response : pyval :=
  PDict [("gameWeek", PList [
    PDict [("date", PStr demo_date);
           ("games", PList [
              mk_game (mk_team "CCC" PNone None) (mk_team "DDD" PNone None) (Some "2024-01-15T19:30:00Z");
              mk_game (mk_team "EEE" PNone None) (mk_team "FFF" PNone None) (Some "2024-07-15T19:30:00Z");
              mk_game (mk_team "GGG" PNone None) (mk_team "HHH" PNone None) (Some "2024-03-01T00:05:00Z")])]])].

End NHLscores.

(** ** [NHLscores.py] on a standard output that may refuse text

    [print] encodes its text for [sys.stdout] and raises
    [UnicodeEncodeError] when the encoding cannot represent it.  The
    embedding above takes a standard output that accepts every text; here
    the same functions are embedded with the standard output as a
    parameter.  A [print] inside a [try] is caught by its
    [except Exception as e]; the warnings of lines 74, 85, 99, 112 and 127
    are printed by the handlers themselves, and those of lines 89-90
    outside any [try]. *)

Module Stdout.
Import Py NHLscores.

(** [sys.stdout]: the texts its encoding can write, and [str(e)] of the
    [UnicodeEncodeError] it raises for any other text. *)
Record console : Type := {
  stdout_encodes : string -> bool;
  encode_error_text : string -> string;
}.

Section Program.
Variable K : console.
Variable P : platform.
Variable E : environment.

(** [print(msg)] where no [try] encloses it. *)
Definition print (msg : string) : M unit :=
  fun w =>
    if stdout_encodes K msg
    then (Ret tt, set_trace w (trace w ++ [EvPrint msg])%list)
    else (Raise UnicodeEncodeError, w).

(** [print(msg)] as a statement of a [try] block: [inl (str(e))] when it
    raised. *)
Definition print_in_try (msg : string) : M (string + unit) :=
  fun w =>
    if stdout_encodes K msg
    then (Ret (inr tt), set_trace w (trace w ++ [EvPrint msg])%list)
    else (Ret (inl (encode_error_text K msg)), w).

(** The next statement of a [try] block: it is skipped once an earlier
    statement has raised. *)
Definition and_then {A B} (c : M (string + A)) (k : A -> M (string + B)) : M (string + B) :=
  r <- c ;;
  match r with
  | inl e => ret (inl e)
  | inr a => k a
  end.

(** Lines 65-91: a cached SVG exists. *)
Definition convert_existing (abbrev : pyval) : M (option string) :=
  let png_path := png_path_of P abbrev in
  let svg_path := svg_path_of P abbrev in
  r1 <- (if cairosvg_loaded P then
           c <- and_then (print_in_try ("Converting existing " +:+ fmt P abbrev +:+
                                        ".svg to PNG with cairosvg..."))
                  (fun _ => and_then (cairo_svg2png E (CairoUrl svg_path) png_path)
                  (fun _ => print_in_try ("Successfully converted " +:+ fmt P abbrev +:+
                                          ".svg to PNG"))) ;;
           match c with
           | inr _ => ret (Some png_path)
           | inl e =>
               print ("Warning: cairosvg conversion failed for " +:+ fmt P abbrev +:+ ": " +:+ e) ;;;
               go_on
           end
         else go_on) ;;
  match r1 with
  | Some p => ret (Some p)
  | None =>
      r2 <- (if svglib_available P then
               c <- and_then (print_in_try ("Converting existing " +:+ fmt P abbrev +:+
                                            ".svg to PNG with svglib..."))
                      (fun _ => and_then (svglib_convert E svg_path png_path)
                      (fun _ => print_in_try ("Successfully converted " +:+ fmt P abbrev +:+
                                              ".svg to PNG"))) ;;
               match c with
               | inr _ => ret (Some png_path)
               | inl e =>
                   print ("Warning: svglib conversion failed for " +:+ fmt P abbrev +:+ ": " +:+ e) ;;;
                   go_on
               end
             else go_on) ;;
      match r2 with
      | Some p => ret (Some p)
      | None =>
          (if negb (cairosvg_loaded P) && negb (svglib_available P) then
             print ("Warning: " +:+ fmt P abbrev +:+ ".svg exists but no SVG converter is available.") ;;;
             print "Install with: pip install svglib reportlab"
           else ret tt) ;;;
          ret None
      end
  end.

(** Lines 103-127: the downloaded asset is an SVG. *)
Definition convert_downloaded (abbrev : pyval) (content : bytes) : M (option string) :=
  let png_path := png_path_of P abbrev in
  r1 <- (if cairosvg_loaded P then
           c <- and_then (print_in_try ("Converting downloaded " +:+ fmt P abbrev +:+
                                        " SVG to PNG with cairosvg..."))
                  (fun _ => and_then (cairo_svg2png E (CairoBytes content) png_path)
                  (fun _ => print_in_try ("Successfully converted " +:+ fmt P abbrev +:+
                                          " SVG to PNG"))) ;;
           match c with
           | inr _ => ret (Some png_path)
           | inl e =>
               print ("Warning: cairosvg conversion failed for " +:+ fmt P abbrev +:+ ": " +:+ e) ;;;
               go_on
           end
         else go_on) ;;
  match r1 with
  | Some p => ret (Some p)
  | None =>
      if svglib_available P then
        let svg_temp := svg_path_of P abbrev in
        c <- and_then (write_file E svg_temp content)
               (fun _ => and_then (print_in_try ("Converting downloaded " +:+ fmt P abbrev +:+
                                                 " SVG to PNG with svglib..."))
               (fun _ => and_then (svglib_convert E svg_temp png_path)
               (fun _ => print_in_try ("Successfully converted " +:+ fmt P abbrev +:+
                                       " SVG to PNG")))) ;;
        match c with
        | inr _ => ret (Some png_path)
        | inl e =>
            print ("Warning: svglib conversion failed for " +:+ fmt P abbrev +:+ ": " +:+ e) ;;;
            go_on
        end
      else go_on
  end.

(** Lines 93-142: no cached PNG and no cached SVG. *)
Definition download_and_store (abbrev : pyval) (logo_url ext : string) : M (option string) :=
  d <- requests_get E logo_url ;;
  match d with
  | inl e =>
      print ("Warning: Failed to download logo for " +:+ fmt P abbrev +:+ ": " +:+ e) ;;;
      ret None
  | inr content =>
      r <- (if String.eqb (str_lower ext) ".svg"
            then convert_downloaded abbrev content
            else go_on) ;;
      match r with
      | Some p => ret (Some p)
      | None =>
          let src_path := logo_file P (fmt P abbrev +:+ ext) in
          wr <- write_file E src_path content ;;
          match wr with
          | inl _ => ret None
          | inr _ => if is_raster_ext ext then ret (Some src_path) else ret None
          end
      end
  end.

(** Lines 42-142. *)
Definition ensure_logo_cached (team_obj : pyval) : M (option string) :=
  let abbrev := team_abbrev team_obj in
  let logo_url := team_logo_url team_obj in
  if negb (py_truthy abbrev) || negb (py_truthy logo_url) then ret None
  else
    match logo_url with
    | PStr url =>
        path <- lift (urlparse_path P url) ;;
        let ext := ext_of P path in
        has_png <- path_exists (png_path_of P abbrev) ;;
        if has_png then ret (Some (png_path_of P abbrev))
        else
          has_svg <- path_exists (svg_path_of P abbrev) ;;
          if has_svg then convert_existing abbrev
          else download_and_store abbrev url ext
    | _ => lift (Raise AttributeError)
    end.

(** Lines 162-214: the body of the loop over the games of a day. *)
Definition process_game (game : pyval) (acc : outputs) : M outputs :=
  away_team_obj <- lift (py_get game "awayTeam" (PDict [])) ;;
  home_team_obj <- lift (py_get game "homeTeam" (PDict [])) ;;
  away_team <- lift (py_get away_team_obj "abbrev" PNone) ;;
  home_team <- lift (py_get home_team_obj "abbrev" PNone) ;;
  a_score <- lift (py_get away_team_obj "score" PNone) ;;
  h_score <- lift (py_get home_team_obj "score" PNone) ;;
  start_time_utc <- lift (py_get game "startTimeUTC" PNone) ;;
  game_state <- lift (py_get game "gameState" (PStr "")) ;;
  a_logo <- ensure_logo_cached away_team_obj ;;
  h_logo <- ensure_logo_cached home_team_obj ;;
  let entry := game_entry P away_team home_team a_score h_score start_time_utc a_logo h_logo in
  ret ((fst acc ++ [fst entry])%list, (snd acc ++ [snd entry])%list).

(** Lines 155-214: the body of the loop over the days. *)
Definition process_day (date_str : string) (day : pyval) (acc : outputs) : M outputs :=
  day_date <- lift (py_get day "date" PNone) ;;
  if negb (py_eqb_str date_str day_date) then ret acc
  else
    has_games <- lift (py_contains "games" day) ;;
    if has_games then
      games <- lift (rbind (py_subscript day "games") py_iter) ;;
      for_each process_game games acc
    else ret acc.

(** Lines 150-216: [fetch_games] once [data = response.json()] is known. *)
Definition fetch_games_on (date_str : string) (data : pyval) : M outputs :=
  has_week <- lift (py_contains "gameWeek" data) ;;
  week <- (if has_week then lift (py_subscript data "gameWeek") else ret PNone) ;;
  if has_week && py_truthy week then
    days <- lift (py_iter week) ;;
    for_each (process_day date_str) days ([], [])
  else ret ([], []).
End Program.

(** The text of a [print] that no [try] encloses: a warning, or the
    hint of line 90. *)
Definition unguarded_text (msg : string) : Prop :=
  String.prefix "Warning:" msg = true \/ msg = "Install with: pip install svglib reportlab".

(** A standard output that can write every text. *)
Definition wide_console : console :=
  {| stdout_encodes := fun _ => true; encode_error_text := fun _ => "" |}.

Definition is_ascii_char (c : Ascii.ascii) : bool := (Ascii.nat_of_ascii c <? 128)%nat.

Fixpoint is_ascii_text (s : string) : bool :=
  match s with
  | EmptyString => true
  | String c s' => is_ascii_char c && is_ascii_text s'
  end.

(** A standard output with the encoding [ascii]. *)
Definition ascii_console : console :=
  {| stdout_encodes := is_ascii_text;
     encode_error_text := fun _ => "'ascii' codec can't encode character" |}.

(** An abbreviation with a letter outside ASCII. *)
Definition accented_abbrev : string := "MTL" +:+ String (Ascii.ascii_of_nat 233) "".

Definition accented_team : pyval := mk_team accented_abbrev PNone (Some jpg_url).

(** One finished game on the requested date; the away team has the
    accented abbreviation and a logo to fetch. *)
Definition accented_response : pyval :=
  PDict [("gameWeek", PList [PDict [("date", PStr demo_date);
     ("games", PList [mk_game (mk_team accented_abbrev (PInt 3) (Some jpg_url))
                              (mk_team "BBB" (PInt 2) None) None])]])].
End Stdout.

(** ** [convert_logos.py] *)

Module ConvertLogos.
Import Py.

Inductive converter : Type := Cairosvg | Svglib | Selenium.

Inductive conversion : Type :=
| Converted
| Failed (png_left_behind : bool).

(** What the script meets when it runs: the outcome of each [import],
    the listing of the logo directory, the outcome of the [i]-th
    conversion and of [input()].  Console output is not modelled. *)
Record environment : Type := {
  import_pillow : result unit;
  import_cairosvg : result unit;
  import_svglib : result unit;
  import_selenium : result unit;
  listdir : result (list string);
  convert : nat -> converter -> string -> conversion;
  input : result string;
}.

Record report : Type := {
  exit_code : Z;
  converted : nat;
  skipped : nat;
  failed : nat;
}.

(** [sys.exit(code)] before any file was looked at; an uncaught
    exception ends the interpreter with status 1. *)
Definition exit_with (code : Z) : report :=
  {| exit_code := code; converted := 0; skipped := 0; failed := 0 |}.

Definition uncaught : report := exit_with 1.

Definition import_or_os_error (e : exn) : bool :=
  match e with ImportError | OSError => true | _ => false end.

Definition import_error (e : exn) : bool :=
  match e with ImportError => true | _ => false end.

(** One [try: import ...; converter_available = c; except handled: pass]
    block, entered with [converter_available = current]. *)
Definition try_import (imported : result unit) (handled : exn -> bool) (c : converter)
    (current : option converter) : result (option converter) :=
  match imported with
  | Ret _ => Ret (Some c)
  | Raise e => if handled e then Ret current else Raise e
  end.

(** Lines 18-48. *)
Definition select_converter (env : environment) : result (option converter) :=
  match try_import (import_cairosvg env) import_or_os_error Cairosvg None with
  | Raise e => Raise e
  | Ret c1 =>
      match (match c1 with
             | Some _ => Ret c1
             | None => try_import (import_svglib env) import_or_os_error Svglib c1
             end) with
      | Raise e => Raise e
      | Ret c2 =>
          match c2 with
          | Some _ => Ret c2
          | None => try_import (import_selenium env) import_error Selenium c2
          end
      end
  end.

(** Lines 74-113: [present] are the names in the directory, including the
    PNG files written so far; [i] counts the conversions attempted. *)
Fixpoint convert_all (env : environment) (c : converter) (svg_files : list string)
    (present : list string) (i : nat) (counts : nat * nat * nat) : nat * nat * nat :=
  match svg_files with
  | [] => counts
  | svg_file :: rest =>
      let '(n_converted, n_skipped, n_failed) := counts in
      let png_file := str_replace ".svg" ".png" svg_file in
      if existsb (String.eqb png_file) present
      then convert_all env c rest present i (n_converted, S n_skipped, n_failed)
      else
        match convert env i c svg_file with
        | Converted =>
            convert_all env c rest (png_file :: present) (S i)
                        (S n_converted, n_skipped, n_failed)
        | Failed left_behind =>
            convert_all env c rest
                        (if left_behind then png_file :: present else present) (S i)
                        (n_converted, n_skipped, S n_failed)
        end
  end.

Definition is_svg (name : string) : bool := str_endswith ".svg" name.

(** The whole script. *)
Definition main (env : environment) : report :=
  match import_pillow env with
  | Raise e => if import_error e then exit_with 1 else uncaught
  | Ret _ =>
      match select_converter env with
      | Raise _ => uncaught
      | Ret None =>
          match input env with
          | Ret _ => exit_with 1
          | Raise _ => uncaught
          end
      | Ret (Some c) =>
          match listdir env with
          | Raise _ => uncaught
          | Ret names =>
              let svg_files := List.filter is_svg names in
              match svg_files with
              | [] => exit_with 0
              | _ :: _ =>
                  let '(n_converted, n_skipped, n_failed) :=
                    convert_all env c svg_files names 0 (0, 0, 0)%nat in
                  {| exit_code := match input env with Ret _ => 0 | Raise _ => 1 end;
                     converted := n_converted; skipped := n_skipped; failed := n_failed |}
              end
          end
      end
  end.

(** No converter library is available: none of the three imports
    succeeds. *)
Definition no_converter (env : environment) : bool :=
  negb (is_ret (import_cairosvg env)) && negb (is_ret (import_svglib env)) &&
  negb (is_ret (import_selenium env)).

(** The logo directory holds no SVG file. *)
Definition no_svg_files (env : environment) : bool :=
  match listdir env with
  | Ret names => negb (existsb is_svg names)
  | Raise _ => false
  end.

(** A machine with Pillow but no converter, and an empty logo directory. *)
Definition bare_env : environment :=
  {| import_pillow := Ret tt;
     import_cairosvg := Raise ImportError;
     import_svglib := Raise ImportError;
     import_selenium := Raise ImportError;
     listdir := Ret ["AAA.png"; "background.jpg"];
     convert := fun _ _ _ => Failed false;
     input := Ret "" |}.

(** The same directory on a machine with svglib. *)
Definition svglib_env : environment :=
  {| import_pillow := Ret tt;
     import_cairosvg := Raise OSError;
     import_svglib := Ret tt;
     import_selenium := Raise ImportError;
     listdir := Ret ["AAA.png"; "background.jpg"];
     convert := fun _ _ _ => Converted;
     input := Ret "" |}.

End ConvertLogos.

(** ** Notions for the properties of the cache and of the schedule walk *)

Module Notions.
Import Py NHLscores.

(** The summary line that goes with a record: lines 181 and 204 print
    the fields the record keeps. *)
Definition line_of_record (P : platform) (r : game_record) : string :=
  fmt P (away_abbrev r) +:+ " vs " +:+ fmt P (home_abbrev r) +:+ " - " +:+
  (if is_scheduled r
   then match start_time r with Some shown => shown | None => "None" end
   else fmt P (away_score r) +:+ ":" +:+ fmt P (home_score r)).

(** The two team objects of a game, away first. *)
Definition teams_of (game : pyval) : list pyval :=
  [game_team "awayTeam" game; game_team "homeTeam" game].

Definition is_dict (v : pyval) : bool :=
  match v with PDict _ => true | _ => false end.

(** The path an event opens for writing: [open(path, 'wb')], the
    [write_to] of [cairosvg.svg2png], the file of [renderPM.drawToFile]. *)
Definition write_target (e : event) : option string :=
  match e with
  | EvWrite path _ => Some path
  | EvCairo _ dst _ | EvSvglib _ dst _ => Some dst
  | _ => None
  end.

Definition png_url : string := "https://assets.example.org/logos/AAA.png".

(** One game on the requested date; the away team has a logo to fetch. *)
Definition logo_response : pyval :=
  PDict [("gameWeek", PList [PDict [("date", PStr demo_date);
     ("games", PList [mk_game (mk_team "AAA" (PInt 3) (Some jpg_url))
                              (mk_team "BBB" (PInt 2) None) None])]])].

(** One game on the requested date between two other teams; the away
    team has a logo to fetch. *)
Definition visitors_response : pyval :=
  PDict [("gameWeek", PList [PDict [("date", PStr demo_date);
     ("games", PList [mk_game (mk_team "CCC" PNone (Some jpg_url))
                              (mk_team "DDD" PNone None) None])]])].
End Notions.

(** ** The window of [NHLscores.py] (lines 218-461) *)

Module NHLwindow.
Import Py NHLscores.

Inductive font : Type := Font (family : string) (size : nat) (bold : bool).

(** A label as it is created and packed.  [lbl_image] is the file its
    [PhotoImage] was made from. *)
Record label : Type := {
  lbl_ttk : bool;
  lbl_image : option string;
  lbl_text : option pyval;
  lbl_font : option font;
  lbl_side : option string;
  lbl_padx : nat * nat;
  lbl_pady : nat;
}.

(** A child of [container]: the frame of a game row with its labels in
    the order they were packed, or a label put there directly. *)
Inductive widget : Type :=
| Row (children : list label)
| Plain (l : label).

Inductive callback : Type := CbRefreshGames | CbUpdateBackground | CbAutoRefresh.

(** The state of the window the callbacks read and write.  [pending]
    are the timers of [root.after] that have not fired, [ticks] counts the
    images opened so far. *)
Record window : Type := {
  date_var : string;
  title : string;
  container : list widget;
  images_refs : list string;
  auto_refresh_var : bool;
  auto_refresh_job : option nat;
  pending : list (nat * callback);
  next_id : nat;
  ticks : nat;
}.

(** What the machine decides: whether the [n]-th image opens
    ([Image.open(path).resize((64, 64))] and [ImageTk.PhotoImage]), and
    [datetime.now().strftime('%Y-%m-%d')] at the [n]-th tick. *)
Record screen : Type := {
  open_image : nat -> string -> bool;
  today : nat -> string;
}.

Definition set_container (g : window) (c : list widget) : window :=
  {| date_var := date_var g; title := title g; container := c;
     images_refs := images_refs g; auto_refresh_var := auto_refresh_var g;
     auto_refresh_job := auto_refresh_job g; pending := pending g;
     next_id := next_id g; ticks := ticks g |}.

Definition set_title (g : window) (t : string) : window :=
  {| date_var := date_var g; title := t; container := container g;
     images_refs := images_refs g; auto_refresh_var := auto_refresh_var g;
     auto_refresh_job := auto_refresh_job g; pending := pending g;
     next_id := next_id g; ticks := ticks g |}.

Definition set_images_refs (g : window) (refs : list string) : window :=
  {| date_var := date_var g; title := title g; container := container g;
     images_refs := refs; auto_refresh_var := auto_refresh_var g;
     auto_refresh_job := auto_refresh_job g; pending := pending g;
     next_id := next_id g; ticks := ticks g |}.

Definition set_date_var (g : window) (d : string) : window :=
  {| date_var := d; title := title g; container := container g;
     images_refs := images_refs g; auto_refresh_var := auto_refresh_var g;
     auto_refresh_job := auto_refresh_job g; pending := pending g;
     next_id := next_id g; ticks := ticks g |}.

Definition set_auto_refresh_var (g : window) (b : bool) : window :=
  {| date_var := date_var g; title := title g; container := container g;
     images_refs := images_refs g; auto_refresh_var := b;
     auto_refresh_job := auto_refresh_job g; pending := pending g;
     next_id := next_id g; ticks := ticks g |}.

Definition set_auto_refresh_job (g : window) (j : option nat) : window :=
  {| date_var := date_var g; title := title g; container := container g;
     images_refs := images_refs g; auto_refresh_var := auto_refresh_var g;
     auto_refresh_job := j; pending := pending g;
     next_id := next_id g; ticks := ticks g |}.

Definition set_pending (g : window) (p : list (nat * callback)) : window :=
  {| date_var := date_var g; title := title g; container := container g;
     images_refs := images_refs g; auto_refresh_var := auto_refresh_var g;
     auto_refresh_job := auto_refresh_job g; pending := p;
     next_id := next_id g; ticks := ticks g |}.

Definition tick (g : window) : window :=
  {| date_var := date_var g; title := title g; container := container g;
     images_refs := images_refs g; auto_refresh_var := auto_refresh_var g;
     auto_refresh_job := auto_refresh_job g; pending := pending g;
     next_id := next_id g; ticks := S (ticks g) |}.

(** [root.after(ms, cb)]: a new timer; its identifier is returned. *)
Definition after (cb : callback) (g : window) : nat * window :=
  (next_id g,
   {| date_var := date_var g; title := title g; container := container g;
      images_refs := images_refs g; auto_refresh_var := auto_refresh_var g;
      auto_refresh_job := auto_refresh_job g;
      pending := pending g ++ [(next_id g, cb)];
      next_id := S (next_id g); ticks := ticks g |}).

(** [root.after_cancel(id)] *)
Definition after_cancel (id : nat) (g : window) : window :=
  set_pending g (List.filter (fun t => negb (Nat.eqb (fst t) id)) (pending g)).

(** [tk.Label(row, image=photo).pack(side="left", padx=...)] *)
Definition photo_label (path : string) (padx : nat * nat) : label :=
  {| lbl_ttk := false; lbl_image := Some path; lbl_text := None; lbl_font := None;
     lbl_side := Some "left"; lbl_padx := padx; lbl_pady := 0 |}.

(** [tk.Label(row, text=abbrev, font=('Angular', 12, 'bold')).pack(...)] *)
Definition abbrev_label (abbrev : pyval) (padx : nat * nat) : label :=
  {| lbl_ttk := false; lbl_image := None; lbl_text := Some abbrev;
     lbl_font := Some (Font "Angular" 12 true);
     lbl_side := Some "left"; lbl_padx := padx; lbl_pady := 0 |}.

(** [ttk.Label(row, text=..., font=(family, 14, 'bold')).pack(side="left", padx=10)] *)
Definition center_label (family text : string) : label :=
  {| lbl_ttk := true; lbl_image := None; lbl_text := Some (PStr text);
     lbl_font := Some (Font family 14 true);
     lbl_side := Some "left"; lbl_padx := (10, 10)%nat; lbl_pady := 0 |}.

(** Lines 319-320. *)
Definition no_games_label (selected_date : string) : label :=
  {| lbl_ttk := true; lbl_image := None;
     lbl_text := Some (PStr ("No games scheduled for " +:+ selected_date));
     lbl_font := Some (Font "Angular" 14 false);
     lbl_side := None; lbl_padx := (0, 0)%nat; lbl_pady := 20 |}.

(** [path.lower().endswith(('.png', '.jpg', '.jpeg'))] *)
Definition has_raster_suffix (path : string) : bool :=
  let l := str_lower path in
  str_endswith ".png" l || str_endswith ".jpg" l || str_endswith ".jpeg" l.

Section Window.
Variable P : platform.
Variable E : environment.
Variable S : screen.

(** The test of lines 333 and 355. *)
Definition logo_usable (w : world) (logo : option string) : bool :=
  match logo with
  | Some path =>
      negb (String.eqb path "") && bool_decide (is_Some (fs w !! path)) &&
      has_raster_suffix path
  | None => false
  end.

(** Lines 333-342 and 355-364: the logo of a team, or its abbreviation
    when there is no usable file or the image does not open. *)
Definition logo_cell (w : world) (logo : option string) (abbrev : pyval)
    (padx : nat * nat) (g : window) : label * window :=
  if logo_usable w logo then
    let path := match logo with Some p => p | None => "" end in
    if open_image S (ticks g) path
    then (photo_label path padx, tick (set_images_refs g (images_refs g ++ [path])))
    else (abbrev_label abbrev padx, tick g)
  else (abbrev_label abbrev padx, g).

Definition shown (v : option string) : string :=
  match v with Some s => s | None => "None" end.

(** Lines 345-352: the text between the logos. *)
Definition center_text (r : game_record) : string :=
  if is_scheduled r
  then fmt P (away_abbrev r) +:+ " @ " +:+ fmt P (home_abbrev r) +:+ " - " +:+
       shown (start_time r)
  else fmt P (away_abbrev r) +:+ " " +:+ fmt P (away_score r) +:+ " vs " +:+
       fmt P (home_abbrev r) +:+ " " +:+ fmt P (home_score r).

(** The three labels of a game, in the order they are packed. *)
Definition game_labels (family : string) (w : world) (r : game_record) (g : window)
    : list label * window :=
  let '(away, g1) := logo_cell w (away_logo r) (away_abbrev r) (0, 10)%nat g in
  let center := center_label family (center_text r) in
  let '(home, g2) := logo_cell w (home_logo r) (home_abbrev r) (10, 0)%nat g1 in
  ([away; center; home], g2).

(** Lines 329-364: one pass of the loop of [refresh_games]. *)
Definition add_row (w : world) (g : window) (r : game_record) : window :=
  let '(labels, g') := game_labels "Angular" w r g in
  set_container g' (container g' ++ [Row labels]).

(** Lines 307-364.  An exception of [fetch_games] leaves the callback
    after the old rows were destroyed. *)
Definition refresh_games (g : window) (w : world) : result unit * window * world :=
  let selected_date := date_var g in
  let g0 := set_container g [] in
  match fetch_games P E selected_date w with
  | (Raise e, w') => (Raise e, g0, w')
  | (Ret (new_lines, new_games_data), w') =>
      match new_games_data with
      | [] => (Ret tt, set_container g0 [Plain (no_games_label selected_date)], w')
      | _ :: _ =>
          let g1 := set_images_refs (set_title g0 ("NHL Scores - " +:+ selected_date)) [] in
          (Ret tt, fold_left (add_row w') new_games_data g1, w')
      end
  end.

(** Lines 380-386. *)
Definition auto_refresh (g : window) (w : world) : result unit * window * world :=
  if auto_refresh_var g then
    match refresh_games g w with
    | (Raise e, g1, w1) => (Raise e, g1, w1)
    | (Ret _, g1, w1) =>
        let '(id, g2) := after CbAutoRefresh g1 in
        (Ret tt, set_auto_refresh_job g2 (Some id), w1)
    end
  else (Ret tt, g, w).

(** Lines 388-403. *)
Definition toggle_auto_refresh (g : window) (w : world) : result unit * window * world :=
  if auto_refresh_var g then
    let g0 := tick (set_date_var g (today S (ticks g))) in
    match refresh_games g0 w with
    | (Raise e, g1, w1) => (Raise e, g1, w1)
    | (Ret _, g1, w1) =>
        let '(id, g2) := after CbAutoRefresh g1 in
        (Ret tt, set_auto_refresh_job g2 (Some id), w1)
    end
  else
    match auto_refresh_job g with
    | Some id => (Ret tt, set_auto_refresh_job (after_cancel id g) None, w)
    | None => (Ret tt, g, w)
    end.

(** Lines 411-447.  The loop only creates the rows; the labels that
    follow it are packed once, into the last row, for the last game. *)
Definition initial_display (lines : list string) (games_data : list game_record)
    (g : window) (w : world) : result unit * window :=
  match lines with
  | [] => (Ret tt, g)
  | _ :: _ =>
      let g1 := set_container g (container g ++ map (fun _ => Row []) games_data) in
      match last games_data with
      | None => (Raise (OtherError "NameError"), g1)
      | Some r =>
          let '(labels, g2) := game_labels "Arial" w r g1 in
          (Ret tt, set_container g2 (removelast (container g2) ++ [Row labels]))
      end
  end.

(** What happens in the main loop: the user ticks or unticks "Live
    Games", presses "Refresh", types a date, or a pending timer fires. *)
Inductive happening : Type :=
| ClickLiveGames
| PressRefresh
| TypeDate (text : string)
| Fire (id : nat).

Definition run_callback (cb : callback) (g : window) (w : world) : window * world :=
  match cb with
  | CbRefreshGames => let '(_, g', w') := refresh_games g w in (g', w')
  | CbAutoRefresh => let '(_, g', w') := auto_refresh g w in (g', w')
  | CbUpdateBackground => (g, w)
  end.

Definition timer_callback (id : nat) (g : window) : option callback :=
  snd <$> List.find (fun t => Nat.eqb (fst t) id) (pending g).

(** An exception in a callback is reported by Tk and the loop goes on
    with the state as the callback left it. *)
Definition step (h : happening) (gw : window * world) : window * world :=
  let '(g, w) := gw in
  match h with
  | ClickLiveGames =>
      let '(_, g', w') :=
        toggle_auto_refresh (set_auto_refresh_var g (negb (auto_refresh_var g))) w in
      (g', w')
  | PressRefresh => let '(_, g', w') := refresh_games g w in (g', w')
  | TypeDate text => (set_date_var g text, w)
  | Fire id =>
      match timer_callback id g with
      | Some cb => run_callback cb (after_cancel id g) w
      | None => (g, w)
      end
  end.

Definition run_loop (hs : list happening) (gw : window * world) : window * world :=
  fold_left (fun gw h => step h gw) hs gw.

(** Lines 227-238, 370, 378 and 408: the window before anything is
    displayed or scheduled. *)
Definition blank_window (default_date : string) : window :=
  {| date_var := default_date; title := "NHL Scores"; container := [];
     images_refs := []; auto_refresh_var := false; auto_refresh_job := None;
     pending := []; next_id := 0; ticks := 0 |}.

Definition newline : string := String (Ascii.ascii_of_nat 10) EmptyString.

(** [ctypes.windll.user32.MessageBoxW(0, text, title, 0)]; [ctypes] has
    no [windll] outside Windows. *)
Definition message_box (windll : bool) (text box_title : string)
    (shown_so_far : list (string * string)) : result (list (string * string)) :=
  if windll then Ret (shown_so_far ++ [(text, box_title)])%list else Raise AttributeError.

(** Lines 219-461: from the first fetch to the call of
    [root.mainloop()].  The result is the window handed to the main loop
    ([None] without the GUI libraries), with the message boxes shown on
    the way. *)
Definition startup (gui_libs windll : bool) (default_date : string) (w : world)
    : result (option window) * list (string * string) * world :=
  match fetch_games P E default_date w with
  | (Raise e, w1) => (Raise e, [], w1)
  | (Ret (lines, games_data), w1) =>
      let box_title := "NHL Scores " +:+ default_date in
      let no_games := "No games scheduled for " +:+ default_date +:+ "." in
      let '(first_box, w2) :=
        match lines with
        | [] => (message_box windll no_games box_title [], snd (print no_games w1))
        | _ :: _ => (Ret [], w1)
        end in
      match first_box with
      | Raise e => (Raise e, [], w2)
      | Ret boxes =>
          if gui_libs then
            match initial_display lines games_data (blank_window default_date) w2 with
            | (Raise e, _) => (Raise e, boxes, w2)
            | (Ret _, g) =>
                let '(_, g1) := after CbRefreshGames g in
                let '(_, g2) := after CbUpdateBackground g1 in
                (Ret (Some g2), boxes, w2)
            end
          else
            match lines with
            | [] => (Ret None, boxes, w2)
            | _ :: _ =>
                match message_box windll (str_join newline lines) box_title boxes with
                | Ret boxes' => (Ret None, boxes', w2)
                | Raise e => (Raise e, boxes, w2)
                end
            end
      end
  end.
End Window.

(** *** Reading a window *)

Definition is_auto_timer (t : nat * callback) : bool :=
  match snd t with CbAutoRefresh => true | _ => false end.

(** The pending timers that will call [auto_refresh]. *)
Definition auto_timers (g : window) : list (nat * callback) :=
  List.filter is_auto_timer (pending g).

Definition labels_of (wd : widget) : list label :=
  match wd with Row ls => ls | Plain l => [l] end.

(** The files of the images on display, in the order of the rows. *)
Definition shown_images (g : window) : list string :=
  flat_map (fun wd => omap lbl_image (labels_of wd)) (container g).

(** A logo cell: the abbreviation as text, or the image of a file that
    exists and has a raster suffix. *)
Definition is_cell (w : world) (logo : option string) (abbrev : pyval)
    (padx : nat * nat) (l : label) : Prop :=
  l = abbrev_label abbrev padx \/
  exists path, logo = Some path /\ is_Some (fs w !! path) /\
               has_raster_suffix path = true /\ l = photo_label path padx.

(** The row of a record: logo cell, text, logo cell. *)
Definition is_row_of (P : platform) (family : string) (w : world) (r : game_record)
    (wd : widget) : Prop :=
  exists away home,
    wd = Row [away; center_label family (center_text P r); home] /\
    is_cell w (away_logo r) (away_abbrev r) (0, 10)%nat away /\
    is_cell w (home_logo r) (home_abbrev r) (10, 0)%nat home.

(** The window with other rows, references and tick count. *)
Definition repaint (g : window) (c : list widget) (refs : list string) (n : nat) : window :=
  {| date_var := date_var g; title := title g; container := c;
     images_refs := refs; auto_refresh_var := auto_refresh_var g;
     auto_refresh_job := auto_refresh_job g; pending := pending g;
     next_id := next_id g; ticks := n |}.

Definition images_in (wds : list widget) : list string :=
  flat_map (fun wd => omap lbl_image (labels_of wd)) wds.

(** At most one [auto_refresh] timer is pending, and then "Live Games"
    is ticked and [auto_refresh_job] is that timer. *)
Definition timers_tidy (g : window) : Prop :=
  auto_timers g = [] \/
  exists id, auto_timers g = [(id, CbAutoRefresh)] /\
             auto_refresh_var g = true /\ auto_refresh_job g = Some id.

(** Every image on display has its reference kept. *)
Definition refs_cover (g : window) : Prop :=
  forall path, In path (shown_images g) -> In path (images_refs g).

(** A response with games, served to every schedule request. *)
Definition schedule_env (data : pyval) : environment :=
  steady_env (inr demo_png) (inl "no cairo") (inl "bad drawing") WriteOk (Ret data).

Definition always_open : screen :=
  {| open_image := fun _ _ => true; today := fun _ => "2024-01-15" |}.

(** A window with live updating on and its timer pending. *)
Definition live_window : window :=
  {| date_var := demo_date; title := "NHL Scores - 2024-01-15"; container := [];
     images_refs := []; auto_refresh_var := true; auto_refresh_job := Some 2%nat;
     pending := [(2, CbAutoRefresh)]%nat; next_id := 3; ticks := 1 |}.

End NHLwindow.

(** ** Notions for the properties of [convert_logos.py] *)

Module ConvertNotions.
Import Py ConvertLogos.

(** The import a converter stands for, and its place in the probe. *)
Definition import_of (env : environment) (c : converter) : result unit :=
  match c with
  | Cairosvg => import_cairosvg env
  | Svglib => import_svglib env
  | Selenium => import_selenium env
  end.

Definition rank (c : converter) : nat :=
  match c with Cairosvg => 0 | Svglib => 1 | Selenium => 2 end.


(** The name has no dot. *)
Fixpoint dotless (s : string) : bool :=
  match s with
  | EmptyString => true
  | String c s' => negb (Ascii.eqb c "."%char) && dotless s'
  end.

(** A directory with two logos to convert, on a machine with svglib. *)
Definition two_svgs_env : environment :=
  {| import_pillow := Ret tt;
     import_cairosvg := Raise OSError;
     import_svglib := Ret tt;
     import_selenium := Raise ImportError;
     listdir := Ret ["AAA.svg"; "BBB.svg"; "BBB.png"];
     convert := fun _ _ _ => Converted;
     input := Ret "" |}.

(** A directory whose only logo was converted by an earlier run; every
    conversion would fail now. *)
Definition converted_env : environment :=
  {| import_pillow := Ret tt;
     import_cairosvg := Ret tt;
     import_svglib := Raise ImportError;
     import_selenium := Raise ImportError;
     listdir := Ret ["AAA.svg"; "AAA.png"; "backround.jpg"];
     convert := fun _ _ _ => Failed false;
     input := Ret "" |}.
End ConvertNotions.

(** * Properties *)

Module NHLscoresFacts.
Import Py NHLscores.


Lemma new_events_refl w : new_events w w = [].
Proof. unfold new_events. by rewrite drop_all. Qed.

Lemma new_events_mk w f evs :
  new_events w {| fs := f; trace := trace w ++ evs |} = evs.
Proof. unfold new_events. cbn. by rewrite drop_app_length. Qed.

(** ** [ensure_logo_cached] *)

Section LogoCache.
Variable P : platform.
Variable E : environment.

Ltac unfold_ops :=
  unfold runs, convert_existing, download_and_store, convert_downloaded,
    go_on, print, emit, path_exists, requests_get,
    cairo_svg2png, svglib_convert, write_file, bind, ret, lift,
    set_trace, came_back in *;
  cbn [fst snd fs trace] in *.

Ltac split_run :=
  repeat (case_match; cbn [fst snd fs trace] in *; simplify_eq);
  repeat (rewrite <- ?app_assoc; cbn [app fst snd fs trace]).

(** With a cached SVG the function converts or gives up: it never
    downloads, and it returns [None] exactly when every attempt failed,
    having printed a warning and left the files alone. *)
Lemma convert_existing_run abbrev w :
  exists r f evs,
    runs (convert_existing P E abbrev) w (Ret r) f evs /\
    existsb is_download evs = false /\
    existsb io_failed evs = false /\
    ((r = None /\ f = fs w /\ forallb attempt_failed evs = true /\
      existsb is_warning evs = true) \/
     (r = Some (png_path_of P abbrev) /\ forallb attempt_failed evs = false)).
Proof.
  unfold_ops. split_run; do 3 eexists; (split; [reflexivity|]); cbn; auto 10.
Qed.

Lemma svg_is_not_raster ext :
  String.eqb (str_lower ext) ".svg" = true -> is_raster_ext ext = false.
Proof.
  intros H. apply String.eqb_eq in H. unfold is_raster_ext. by rewrite H.
Qed.

Lemma download_and_store_run abbrev url ext w :
  exists r f evs,
    runs (download_and_store P E abbrev url ext) w (Ret r) f evs /\
    existsb is_download evs = true /\
    (existsb io_failed evs = true -> r = None).
Proof.
  pose proof (svg_is_not_raster ext) as Hsvg.
  unfold_ops. split_run; do 3 eexists; (split; [reflexivity|]); cbn;
    split; auto; intros; try congruence; by specialize (Hsvg eq_refl).
Qed.

(** The four ways through [ensure_logo_cached]. *)
Lemma ensure_logo_cached_cases team_obj w :
  let abbrev := team_abbrev team_obj in
  match logo_lookup_error P team_obj with
  | Some e => ensure_logo_cached P E team_obj w = (Raise e, w)
  | None =>
      if negb (py_truthy abbrev) || negb (py_truthy (team_logo_url team_obj))
      then ensure_logo_cached P E team_obj w = (Ret None, w)
      else if bool_decide (is_Some (fs w !! png_path_of P abbrev))
      then ensure_logo_cached P E team_obj w = (Ret (Some (png_path_of P abbrev)), w)
      else if bool_decide (is_Some (fs w !! svg_path_of P abbrev))
      then ensure_logo_cached P E team_obj w = convert_existing P E abbrev w
      else exists url path,
          team_logo_url team_obj = PStr url /\ urlparse_path P url = Ret path /\
          ensure_logo_cached P E team_obj w =
            download_and_store P E abbrev url (ext_of P path) w
  end.
Proof.
  cbv zeta. unfold logo_lookup_error, ensure_logo_cached.
  destruct (negb _ || negb _) eqn:Hskip; [done|].
  destruct (team_logo_url team_obj) as [| | |url| |] eqn:Hurl; try done.
  destruct (urlparse_path P url) as [path|e] eqn:Hpath; [|done].
  unfold bind, lift, path_exists.
  destruct (bool_decide (is_Some (fs w !! png_path_of _ _))); [done|].
  destruct (bool_decide (is_Some (fs w !! svg_path_of _ _))); [done|].
  by exists url, path.
Qed.

(** C1, as amended: when [<abbrev>.png] is in the cache directory, a
    call for that abbreviation leaves the world as it was (nothing is
    downloaded, converted, printed or written); it returns the path of
    the PNG when the team object carries a logo URL that [urlparse]
    accepts, and [None] when it carries no logo URL. *)
Theorem ensure_logo_cached_png_hit team_obj w :
  is_Some (fs w !! png_path_of P (team_abbrev team_obj)) ->
  world_after (ensure_logo_cached P E team_obj) w = w /\
  (forall url path,
      py_truthy (team_abbrev team_obj) = true ->
      team_logo_url team_obj = PStr url -> url <> "" ->
      urlparse_path P url = Ret path ->
      result_of (ensure_logo_cached P E team_obj) w =
        Ret (Some (png_path_of P (team_abbrev team_obj)))) /\
  (py_truthy (team_logo_url team_obj) = false ->
   result_of (ensure_logo_cached P E team_obj) w = Ret None).
Proof.
  unfold world_after, result_of. intros Hpng. apply (bool_decide_eq_true_2 _) in Hpng.
  pose proof (ensure_logo_cached_cases team_obj w) as Hc. cbv zeta in Hc.
  unfold logo_lookup_error in *. rewrite Hpng in Hc.
  split; [|split].
  - destruct (negb _ || negb _); [by rewrite Hc|].
    destruct (team_logo_url team_obj); try by rewrite Hc.
    destruct (urlparse_path P s); by rewrite Hc.
  - intros url path Ha Hu Hne Hp. rewrite Hu in Hc. cbn in Hc.
    rewrite Ha, Hp in Hc. apply String.eqb_neq in Hne. rewrite Hne in Hc.
    cbn in Hc. by rewrite Hc.
  - intros Hl. rewrite Hl, orb_true_r in Hc. by rewrite Hc.
Qed.


Lemma ensure_logo_cached_raises team_obj w e :
  logo_lookup_error P team_obj = Some e ->
  ensure_logo_cached P E team_obj w = (Raise e, w).
Proof.
  intros He. pose proof (ensure_logo_cached_cases team_obj w) as Hc.
  cbv zeta in Hc. by rewrite He in Hc.
Qed.

Lemma ensure_logo_cached_returns team_obj w :
  logo_lookup_error P team_obj = None ->
  exists r f evs,
    runs (ensure_logo_cached P E team_obj) w (Ret r) f evs /\
    (existsb io_failed evs = true -> r = None).
Proof.
  intros Hok. pose proof (ensure_logo_cached_cases team_obj w) as Hc.
  cbv zeta in Hc. rewrite Hok in Hc. unfold runs.
  destruct (negb _ || negb _).
  { exists None, (fs w), []. rewrite app_nil_r. by destruct w. }
  destruct (bool_decide _).
  { eexists _, (fs w), []. rewrite app_nil_r. by destruct w. }
  destruct (bool_decide _).
  - destruct (convert_existing_run (team_abbrev team_obj) w)
      as (r & f & evs & Hrun & _ & Hio & _).
    exists r, f, evs. rewrite Hc. split; [done|]. by rewrite Hio.
  - destruct Hc as (url & path & _ & _ & ->).
    destruct (download_and_store_run (team_abbrev team_obj) url (ext_of P path) w)
      as (r & f & evs & Hrun & _ & Hio).
    by exists r, f, evs.
Qed.

End LogoCache.

(** *** Concrete runs of [ensure_logo_cached] *)

(** C1 as stated fails for a raster logo that is not a PNG: with
    [AAA.jpg] in the cache, resolving AAA again downloads the logo and
    writes the file anew. *)
Lemma cached_jpg_is_downloaded_again :
  is_raster_ext ".jpg" = true /\
  fs jpg_cached_world !! jpg_path = Some stale_jpg /\
  ensure_logo_cached (demo_platform true true) online_env
      (mk_team "AAA" PNone (Some jpg_url)) jpg_cached_world =
    (Ret (Some jpg_path),
     {| fs := {[ jpg_path := demo_jpg ]};
        trace := [EvHttpGet jpg_url true; EvWrite jpg_path true] |}).
Proof. vm_compute. done. Qed.

(** A team object without a logo URL gets [None] even when its PNG is
    cached (the guard of line 48 comes first). *)
Example png_hit_without_logo_url :
  ensure_logo_cached (demo_platform true true) online_env
      (mk_team "AAA" PNone None)
      {| fs := {[ "/opt/nhl/logos/AAA.png" := demo_png ]}; trace := [] |} =
    (Ret None, {| fs := {[ "/opt/nhl/logos/AAA.png" := demo_png ]}; trace := [] |}).
Proof. vm_compute. done. Qed.


(** ** [fetch_games] *)





Section Fetch.
Variable P : platform.







Section Run.
Variable E : environment.

Lemma process_game_ok game acc w :
  game_ok P game = true ->
  exists entry w',
    process_game P E game acc w =
      (Ret ((fst acc ++ [fst entry])%list, (snd acc ++ [snd entry])%list), w') /\
    made_from P game entry.
Proof.
  destruct game as [| | | | |kvs]; try done. cbn [game_ok game_team].
  intros [Ha Hh]%andb_true_iff. unfold team_ok in Ha, Hh.
  unfold process_game. unfold bind at 1 2. cbn [py_get lift].
  destruct (dict_get kvs "awayTeam" (PDict [])) as [| | | | |akvs] eqn:Haway; try done.
  destruct (dict_get kvs "homeTeam" (PDict [])) as [| | | | |hkvs] eqn:Hhome; try done.
  unfold bind at 1 2 3 4 5 6. cbn [py_get lift].
  destruct (logo_lookup_error P (PDict akvs)) eqn:Hea; [done|].
  destruct (logo_lookup_error P (PDict hkvs)) eqn:Heh; [done|].
  destruct (ensure_logo_cached_returns P E _ w Hea) as (al & f1 & ev1 & Hr1 & _).
  unfold runs in Hr1. unfold bind at 1. rewrite Hr1.
  destruct (ensure_logo_cached_returns P E _ {| fs := f1; trace := trace w ++ ev1 |} Heh)
    as (hl & f2 & ev2 & Hr2 & _).
  unfold runs in Hr2. unfold bind at 1. rewrite Hr2.
  eexists _, _. split; [reflexivity|].
  exists al, hl. unfold entry_of, away_score_in, home_score_in, start_time_in.
  cbn [game_team game_field team_field]. by rewrite Haway, Hhome.
Qed.

Lemma for_each_games_ok games :
  forallb (game_ok P) games = true ->
  forall acc w,
  exists entries w',
    for_each (process_game P E) games acc w =
      (Ret ((fst acc ++ map fst entries)%list, (snd acc ++ map snd entries)%list), w') /\
    Forall2 (made_from P) games entries.
Proof.
  induction games as [|g games IH]; cbn [forallb for_each]; intros Hok acc w.
  - exists [], w. cbn. rewrite !app_nil_r. by destruct acc.
  - apply andb_true_iff in Hok as [Hg Hrest].
    destruct (process_game_ok g acc w Hg) as (entry & w1 & Hrun & Hmade).
    unfold bind. rewrite Hrun.
    destruct (IH Hrest ((fst acc ++ [fst entry])%list, (snd acc ++ [snd entry])%list) w1)
      as (entries & w2 & Hrest_run & Hall).
    exists (entry :: entries), w2. rewrite Hrest_run. cbn [fst snd map].
    rewrite <- !app_assoc. by split; [|constructor].
Qed.

Lemma process_day_ok date_str day acc w :
  day_ok P date_str day = true ->
  exists entries w',
    process_day P E date_str day acc w =
      (Ret ((fst acc ++ map fst entries)%list, (snd acc ++ map snd entries)%list), w') /\
    Forall2 (made_from P) (day_games date_str day) entries.
Proof.
  assert (Hnone : exists entries w',
             ret acc w = (Ret ((fst acc ++ map fst entries)%list,
                               (snd acc ++ map snd entries)%list), w') /\
             Forall2 (made_from P) [] entries).
  { exists [], w. cbn. rewrite !app_nil_r. destruct acc. by split. }
  destruct day as [| | | | |kvs]; try done. cbn [day_ok day_games].
  unfold process_day. unfold bind at 1. cbn [py_get lift].
  destruct (py_eqb_str date_str _); cbn [negb]; [|done].
  unfold bind at 1. cbn [py_contains lift].
  destruct (dict_lookup "games" kvs) as [v|] eqn:Hgames; cbn; [|done].
  unfold bind. cbn [lift]. rewrite Hgames. cbn [rbind].
  destruct v as [| | |s|games|gkvs]; cbn [games_ok is_empty_iterable]; try done.
  - intros ->%String.eqb_eq. exact Hnone.
  - intros Hok. cbn [py_iter list_items].
    apply for_each_games_ok, Hok.
  - destruct gkvs; [|done]. intros _. exact Hnone.
Qed.

Lemma for_each_days_ok date_str days :
  forallb (day_ok P date_str) days = true ->
  forall acc w,
  exists entries w',
    for_each (process_day P E date_str) days acc w =
      (Ret ((fst acc ++ map fst entries)%list, (snd acc ++ map snd entries)%list), w') /\
    Forall2 (made_from P) (flat_map (day_games date_str) days) entries.
Proof.
  induction days as [|day days IH]; cbn [forallb for_each flat_map]; intros Hok acc w.
  - exists [], w. cbn. rewrite !app_nil_r. by destruct acc.
  - apply andb_true_iff in Hok as [Hd Hrest].
    destruct (process_day_ok date_str day acc w Hd) as (es1 & w1 & Hrun & Hmade).
    unfold bind. rewrite Hrun.
    destruct (IH Hrest ((fst acc ++ map fst es1)%list, (snd acc ++ map snd es1)%list) w1)
      as (es2 & w2 & Hrest_run & Hall).
    exists (es1 ++ es2)%list, w2. rewrite Hrest_run. cbn [fst snd].
    rewrite !map_app, <- !app_assoc. split; [done|]. by apply Forall2_app.
Qed.

(** On a well-formed response [fetch_games] returns, with one line
    and one record per game of the requested date, in order. *)
Lemma fetch_games_on_ok date_str data w :
  response_ok P date_str data = true ->
  exists entries w',
    fetch_games_on P E date_str data w =
      (Ret (map fst entries, map snd entries), w') /\
    Forall2 (made_from P) (response_games date_str data) entries.
Proof.
  assert (Hnone : exists entries w',
             ret ([], []) w = (Ret (map fst entries, map snd entries), w') /\
             Forall2 (made_from P) [] entries).
  { exists [], w. by split. }
  unfold fetch_games_on, response_ok, response_games.
  destruct data as [| | |s|xs|kvs]; try done.
  - intros Hs%negb_true_iff. unfold bind. cbn [py_contains lift].
    rewrite Hs. exact Hnone.
  - intros Hs%negb_true_iff. unfold bind. cbn [py_contains lift].
    rewrite Hs. exact Hnone.
  - unfold bind at 1. cbn [py_contains lift].
    destruct (dict_lookup "gameWeek" kvs) as [v|] eqn:Hweek; cbn [bool_decide];
      [|intros _; exact Hnone].
    rewrite bool_decide_eq_true_2 by eauto.
    unfold bind at 1. cbn [py_subscript lift]. rewrite Hweek.
    destruct (py_truthy v) eqn:Htruthy; cbn [andb].
    + destruct v as [| | | |days|]; cbn [negb]; try done.
      intros Hok. unfold bind. cbn [py_iter lift list_items].
      apply (for_each_days_ok date_str days Hok ([], []) w).
    + intros _.
      assert (list_items v = []) as -> by (by destruct v as [| | | |[|]|]).
      exact Hnone.
Qed.

(** [response_ok] is exact: on any other response [fetch_games] raises. *)
Lemma process_game_bad game acc w :
  game_ok P game = false ->
  exists e w', process_game P E game acc w = (Raise e, w').
Proof.
  destruct game as [| | | | |kvs]; try (intros _; by eexists _, _).
  cbn [game_ok game_team]. unfold team_ok, process_game.
  unfold bind at 1 2. cbn [py_get lift].
  destruct (dict_get kvs "awayTeam" (PDict [])) as [| | | | |akvs] eqn:Haway;
    try (intros _; by eexists _, _).
  destruct (dict_get kvs "homeTeam" (PDict [])) as [| | | | |hkvs] eqn:Hhome;
    try (intros _; by eexists _, _).
  unfold bind at 1 2 3 4 5 6. cbn [py_get lift].
  destruct (logo_lookup_error P (PDict akvs)) as [e|] eqn:Hea.
  { intros _. unfold bind. rewrite (ensure_logo_cached_raises _ _ _ _ _ Hea). by eexists _, _. }
  destruct (logo_lookup_error P (PDict hkvs)) as [e|] eqn:Heh; [|done].
  intros _. destruct (ensure_logo_cached_returns P E _ w Hea) as (al & f1 & ev1 & Hr1 & _).
  unfold runs in Hr1. unfold bind. rewrite Hr1.
  rewrite (ensure_logo_cached_raises _ _ _ _ _ Heh). by eexists _, _.
Qed.

Lemma for_each_games_bad games :
  forallb (game_ok P) games = false ->
  forall acc w, exists e w', for_each (process_game P E) games acc w = (Raise e, w').
Proof.
  induction games as [|g games IH]; [done|]. cbn [forallb for_each]. intros Hbad acc w.
  destruct (game_ok P g) eqn:Hg; cbn [andb] in Hbad.
  - destruct (process_game_ok g acc w Hg) as (entry & w1 & Hrun & _).
    unfold bind. rewrite Hrun. apply IH, Hbad.
  - destruct (process_game_bad g acc w Hg) as (e & w1 & Hrun).
    unfold bind. rewrite Hrun. by eexists _, _.
Qed.

Lemma process_day_bad date_str day acc w :
  day_ok P date_str day = false ->
  exists e w', process_day P E date_str day acc w = (Raise e, w').
Proof.
  destruct day as [| | | | |kvs]; try (intros _; by eexists _, _).
  cbn [day_ok]. unfold process_day. unfold bind at 1. cbn [py_get lift].
  destruct (py_eqb_str date_str _); cbn [negb]; [|done].
  unfold bind at 1. cbn [py_contains lift].
  destruct (dict_lookup "games" kvs) as [v|] eqn:Hgames; cbn; [|done].
  unfold bind. cbn [lift]. rewrite Hgames. cbn [rbind].
  destruct v as [| | |s|games|gkvs]; cbn [games_ok is_empty_iterable];
    try (intros _; by eexists _, _).
  - destruct s; [done|]. intros _. by eexists _, _.
  - intros Hbad. cbn [py_iter]. apply for_each_games_bad, Hbad.
  - destruct gkvs; [done|]. intros _. by eexists _, _.
Qed.

Lemma for_each_days_bad date_str days :
  forallb (day_ok P date_str) days = false ->
  forall acc w, exists e w', for_each (process_day P E date_str) days acc w = (Raise e, w').
Proof.
  induction days as [|d days IH]; [done|]. cbn [forallb for_each]. intros Hbad acc w.
  destruct (day_ok P date_str d) eqn:Hd; cbn [andb] in Hbad.
  - destruct (process_day_ok date_str d acc w Hd) as (es & w1 & Hrun & _).
    unfold bind. rewrite Hrun. apply IH, Hbad.
  - destruct (process_day_bad date_str d acc w Hd) as (e & w1 & Hrun).
    unfold bind. rewrite Hrun. by eexists _, _.
Qed.

Lemma fetch_games_on_bad date_str data w :
  response_ok P date_str data = false ->
  exists e w', fetch_games_on P E date_str data w = (Raise e, w').
Proof.
  unfold fetch_games_on, response_ok.
  destruct data as [| | |s|xs|kvs]; try (intros _; by eexists _, _).
  - intros Hs%negb_false_iff. unfold bind. cbn [py_contains lift]. rewrite Hs.
    by eexists _, _.
  - intros Hs%negb_false_iff. unfold bind. cbn [py_contains lift]. rewrite Hs.
    by eexists _, _.
  - unfold bind at 1. cbn [py_contains lift].
    destruct (dict_lookup "gameWeek" kvs) as [v|] eqn:Hweek; [|done].
    rewrite bool_decide_eq_true_2 by eauto.
    unfold bind at 1. cbn [py_subscript lift]. rewrite Hweek. cbn [andb].
    destruct v as [|[|]|n|s|days|wkvs]; cbn [negb py_truthy]; try done;
      try (intros _; by eexists _, _).
    + intros Hn%negb_false_iff. rewrite Hn. by eexists _, _.
    + destruct s; [done|]. intros _. by eexists _, _.
    + destruct days as [|d days]; [done|]. intros Hbad. unfold bind. cbn [py_iter lift].
      apply (for_each_days_bad date_str (d :: days) Hbad).
    + destruct wkvs; [done|]. intros _. by eexists _, _.
Qed.

Lemma fetch_games_on_returns_iff date_str data w :
  is_ret (fst (fetch_games_on P E date_str data w)) = response_ok P date_str data.
Proof.
  destruct (response_ok P date_str data) eqn:Hok.
  - destruct (fetch_games_on_ok date_str data w Hok) as (es & w' & -> & _). done.
  - destruct (fetch_games_on_bad date_str data w Hok) as (e & w' & ->). done.
Qed.






(** A day entry of another date is skipped: nothing is added, read or
    written. *)
Lemma process_day_other date_str day acc w :
  is_other_day date_str day = true ->
  process_day P E date_str day acc w = (Ret acc, w).
Proof.
  destruct day as [| | | | |kvs]; try done. cbn [is_other_day]. intros Hother.
  unfold process_day, bind. cbn [py_get lift]. by rewrite Hother.
Qed.

Lemma for_each_day_filter date_str days acc w :
  for_each (process_day P E date_str)
           (List.filter (fun day => negb (is_other_day date_str day)) days) acc w =
  for_each (process_day P E date_str) days acc w.
Proof.
  revert acc w. induction days as [|day days IH]; intros acc w; [done|].
  cbn [List.filter for_each].
  destruct (is_other_day date_str day) eqn:Hother; cbn [negb for_each].
  - unfold bind. rewrite (process_day_other _ _ _ _ Hother). apply IH.
  - unfold bind. destruct (process_day P E date_str day acc w) as [[acc'|e] w']; [apply IH|done].
Qed.

Lemma dict_lookup_without_other_days date_str kvs :
  dict_lookup "gameWeek"
    (map (fun kv => (fst kv,
                     if String.eqb (fst kv) "gameWeek"
                     then only_requested_day date_str (snd kv)
                     else snd kv)) kvs) =
  option_map (only_requested_day date_str) (dict_lookup "gameWeek" kvs).
Proof.
  induction kvs as [|[k v] kvs IH]; [done|]. cbn [map dict_lookup fst snd].
  destruct (String.eqb k "gameWeek"); [done|]. apply IH.
Qed.

(** C3: the day entries whose date is not the requested string
    contribute nothing: with them taken out of the response, [fetch_games]
    gives the same lines and records and leaves the same world. *)
Theorem fetch_games_ignores_other_days date_str data w :
  fetch_games_on P E date_str (without_other_days date_str data) w =
  fetch_games_on P E date_str data w.
Proof.
  destruct data as [| | | | |kvs]; try done.
  unfold fetch_games_on, without_other_days.
  unfold bind at 1 3. cbn [py_contains lift].
  rewrite dict_lookup_without_other_days.
  destruct (dict_lookup "gameWeek" kvs) as [v|] eqn:Hweek; cbn [option_map]; [|done].
  rewrite !bool_decide_eq_true_2 by eauto.
  unfold bind at 1 3. cbn [py_subscript lift].
  rewrite dict_lookup_without_other_days, Hweek. cbn [option_map andb].
  destruct v as [| | | |days|]; try done. cbn [only_requested_day].
  destruct days as [|day days]; [done|].
  assert (Hloop := for_each_day_filter date_str (day :: days) ([], []) w).
  destruct (List.filter _ (day :: days)) as [|day' days'] eqn:Hkept.
  - exact Hloop.
  - exact Hloop.
Qed.
End Run.

Section Determinism.
Variable E1 E2 : environment.





End Determinism.
End Fetch.

(** *** Concrete runs of [fetch_games] *)

Example mixed_response_lines :
  lines_of (fetch_games_on (demo_platform true true) online_env demo_date
                           mixed_response empty_world) =
    Ret ["AAA vs BBB - 3:2"; "CCC vs DDD - 07:30 PM"; "EEE vs FFF - TBD";
         "GGG vs HHH - TBD"; "III vs JJJ - TBD"].
Proof. vm_compute. reflexivity. Qed.

(** In a zone behind UTC the line shows the local time, which depends
    on the date of the timestamp. *)
Example seasons_response_lines :
  lines_of (fetch_games_on eastern_platform online_env demo_date
                           seasons_response empty_world) =
    Ret ["CCC vs DDD - 02:30 PM"; "EEE vs FFF - 03:30 PM"; "GGG vs HHH - 07:05 PM"].
Proof. vm_compute. reflexivity. Qed.

Example mixed_response_world :
  snd (fetch_games_on (demo_platform true true) online_env demo_date
                      mixed_response empty_world) = empty_world.
Proof. vm_compute. reflexivity. Qed.

Lemma ensure_logo_cached_png_hit_witness :
  is_Some (fs png_cached_world !!
             png_path_of (demo_platform true true)
                         (team_abbrev (mk_team "AAA" PNone (Some jpg_url)))) /\
  world_after (ensure_logo_cached (demo_platform true true) online_env
                 (mk_team "AAA" PNone (Some jpg_url))) png_cached_world = png_cached_world.
Proof.
  assert (H : is_Some (fs png_cached_world !!
                         png_path_of (demo_platform true true)
                                     (team_abbrev (mk_team "AAA" PNone (Some jpg_url)))))
    by (vm_compute; eexists; reflexivity).
  split; [exact H|].
  exact (proj1 (ensure_logo_cached_png_hit (demo_platform true true) online_env
                  (mk_team "AAA" PNone (Some jpg_url)) png_cached_world H)).
Defined.






End NHLscoresFacts.

(** ** [convert_logos.py] *)

Module ConvertLogosFacts.
Import Py ConvertLogos.

Lemma no_converter_selects_none env c :
  no_converter env = true -> select_converter env <> Ret (Some c).
Proof.
  unfold no_converter, select_converter, try_import.
  destruct (import_cairosvg env) as [|e1]; [done|].
  destruct (import_svglib env) as [|e2]; [by rewrite andb_false_r|].
  destruct (import_selenium env) as [|e3]; [by rewrite andb_false_r|].
  intros _. destruct (import_or_os_error e1); [|done].
  destruct (import_or_os_error e2); [|done].
  by destruct (import_error e3).
Qed.

Lemma filter_none {A} (f : A -> bool) xs :
  existsb f xs = false -> List.filter f xs = [].
Proof.
  induction xs as [|x xs IH]; [done|]. cbn [existsb List.filter].
  destruct (f x); [done|]. exact IH.
Qed.

(** C8, as amended: the script exits with status 1 whenever no converter
    library is available; it exits with status 0 when the logo directory
    holds no SVG file provided Pillow was imported and the probe found a
    converter (both are checked before the directory is listed). *)
Theorem main_exit_codes env :
  (no_converter env = true -> exit_code (main env) = 1%Z) /\
  (forall c,
      is_ret (import_pillow env) = true ->
      select_converter env = Ret (Some c) ->
      no_svg_files env = true ->
      exit_code (main env) = 0%Z).
Proof.
  split.
  - intros Hno. unfold main.
    destruct (import_pillow env) as [|e]; [|by destruct (import_error e)].
    destruct (select_converter env) as [[c|]|] eqn:Hsel; [|by destruct (input env)|done].
    by apply no_converter_selects_none in Hsel.
  - intros c Hpil Hsel Hnone. unfold main, no_svg_files in *.
    destruct (import_pillow env); [|done]. rewrite Hsel.
    destruct (listdir env) as [names|]; [|done].
    apply negb_true_iff in Hnone. by rewrite (filter_none _ _ Hnone).
Qed.

(** C8 as stated fails: with no converter library the script exits with
    status 1 although the logo directory holds no SVG file. *)
Lemma no_svg_files_exit_is_not_always_zero :
  no_svg_files bare_env = true /\ no_converter bare_env = true /\
  exit_code (main bare_env) = 1%Z.
Proof. vm_compute. done. Qed.

Lemma main_exit_codes_witness :
  exit_code (main bare_env) = 1%Z /\ exit_code (main svglib_env) = 0%Z.
Proof.
  split.
  - apply (proj1 (main_exit_codes bare_env)). vm_compute; reflexivity.
  - apply (proj2 (main_exit_codes svglib_env) Svglib); vm_compute; reflexivity.
Defined.

End ConvertLogosFacts.

(** ** More on the logo cache *)

Module LogoCacheMore.
Import Py NHLscores NHLscoresFacts Notions.

Section Blocks.
Variable P : platform.
Variable E : environment.

Ltac open_blocks :=
  unfold convert_existing, download_and_store, convert_downloaded,
    go_on, print, emit, path_exists, requests_get,
    cairo_svg2png, svglib_convert, write_file, bind, ret, lift,
    set_trace, came_back in *;
  cbn [fst snd fs trace] in *.

Ltac each_path :=
  repeat (case_match; cbn [fst snd fs trace] in *; simplify_eq);
  cbn [fst snd fs trace] in *.

Lemma convert_existing_keeps abbrev w p :
  is_Some (fs w !! p) -> is_Some (fs (snd (convert_existing P E abbrev w)) !! p).
Proof.
  intros Hp. open_blocks. each_path; try done; rewrite lookup_insert_is_Some'; by right.
Qed.

Lemma convert_existing_result abbrev w q :
  fst (convert_existing P E abbrev w) = Ret (Some q) ->
  q = png_path_of P abbrev /\ is_Some (fs (snd (convert_existing P E abbrev w)) !! q).
Proof.
  open_blocks. each_path; intros; simplify_eq; (split; [done|]); by rewrite lookup_insert_eq.
Qed.

Lemma download_and_store_keeps abbrev url ext w p :
  is_Some (fs w !! p) -> is_Some (fs (snd (download_and_store P E abbrev url ext w)) !! p).
Proof.
  intros Hp. open_blocks.
  each_path; try done; rewrite ?lookup_insert_is_Some'; auto.
Qed.

Lemma download_and_store_result abbrev url ext w q :
  fst (download_and_store P E abbrev url ext w) = Ret (Some q) ->
  is_Some (fs (snd (download_and_store P E abbrev url ext w)) !! q) /\
  (q = png_path_of P abbrev \/
   (is_raster_ext ext = true /\ q = logo_file P (fmt P abbrev +:+ ext))).
Proof.
  open_blocks.
  each_path; intros; simplify_eq; (split; [by rewrite lookup_insert_eq|]); auto.
Qed.

Ltac flatten_trace :=
  repeat (rewrite <- ?app_assoc; cbn [app fst snd fs trace]).

Lemma convert_existing_downloads abbrev w :
  exists r f evs,
    convert_existing P E abbrev w = (r, {| fs := f; trace := trace w ++ evs |}) /\
    List.filter is_download evs = [].
Proof.
  open_blocks. each_path; flatten_trace; by eexists _, _, _.
Qed.

Lemma download_and_store_downloads abbrev url ext w :
  exists r f evs ok,
    download_and_store P E abbrev url ext w = (r, {| fs := f; trace := trace w ++ evs |}) /\
    List.filter is_download evs = [EvHttpGet url ok].
Proof.
  open_blocks. each_path; flatten_trace; by eexists _, _, _, _.
Qed.

(** A call ends before touching anything, or is the conversion of the
    cached SVG, or is the download. *)
Lemma ensure_logo_cached_shape team_obj w :
  (exists r, ensure_logo_cached P E team_obj w = (r, w) /\
             forall q, r = Ret (Some q) ->
                       q = png_path_of P (team_abbrev team_obj) /\ is_Some (fs w !! q)) \/
  ensure_logo_cached P E team_obj w = convert_existing P E (team_abbrev team_obj) w \/
  (exists url path,
      team_logo_url team_obj = PStr url /\
      ensure_logo_cached P E team_obj w =
        download_and_store P E (team_abbrev team_obj) url (ext_of P path) w).
Proof.
  pose proof (ensure_logo_cached_cases P E team_obj w) as Hc. cbv zeta in Hc.
  destruct (logo_lookup_error P team_obj).
  { left. eexists. split; [exact Hc|]. intros q ?; discriminate. }
  destruct (negb _ || negb _).
  { left. eexists. split; [exact Hc|]. intros q ?; discriminate. }
  destruct (bool_decide (is_Some (fs w !! png_path_of P _))) eqn:Hpng.
  { left. eexists. split; [exact Hc|]. intros q [= <-].
    split; [done|]. by apply bool_decide_eq_true in Hpng. }
  destruct (bool_decide (is_Some (fs w !! svg_path_of P _))).
  - right. by left.
  - right. right. destruct Hc as (url & path & Hu & _ & Hrun). by exists url, path.
Qed.

Lemma returned_file_exists team_obj w q w' :
  ensure_logo_cached P E team_obj w = (Ret (Some q), w') -> is_Some (fs w' !! q).
Proof.
  destruct (ensure_logo_cached_shape team_obj w) as [(r & -> & Hr)|[->|(url & path & _ & ->)]].
  - intros [= -> <-]. by apply Hr.
  - intros H. pose proof (convert_existing_result (team_abbrev team_obj) w q) as Hq.
    rewrite H in Hq. by apply Hq.
  - intros H.
    pose proof (download_and_store_result (team_abbrev team_obj) url (ext_of P path) w q) as Hq.
    rewrite H in Hq. by apply Hq.
Qed.

(** X1: a path that [ensure_logo_cached] returns names a file that exists
    when the call ends. *)
Theorem ensure_logo_cached_returns_existing_file team_obj w q :
  result_of (ensure_logo_cached P E team_obj) w = Ret (Some q) ->
  is_Some (fs (world_after (ensure_logo_cached P E team_obj) w) !! q).
Proof.
  unfold result_of, world_after.
  destruct (ensure_logo_cached P E team_obj w) as [r w'] eqn:Hrun. cbn [fst snd].
  intros ->. by eapply returned_file_exists.
Qed.

Ltac each_target :=
  repeat (apply List.Forall_cons; [intros p Hp; cbn in Hp; simplify_eq; auto|]);
  try apply List.Forall_nil.

Lemma convert_existing_targets abbrev w :
  exists r f evs,
    convert_existing P E abbrev w = (r, {| fs := f; trace := trace w ++ evs |}) /\
    Forall (fun ev => forall p, write_target ev = Some p -> p = png_path_of P abbrev) evs.
Proof.
  open_blocks. each_path; flatten_trace; eexists _, _, _; (split; [reflexivity|]); each_target.
Qed.

Lemma download_and_store_targets abbrev url ext w :
  exists r f evs,
    download_and_store P E abbrev url ext w = (r, {| fs := f; trace := trace w ++ evs |}) /\
    Forall (fun ev => forall p, write_target ev = Some p ->
                        p = png_path_of P abbrev \/ p = svg_path_of P abbrev \/
                        p = logo_file P (fmt P abbrev +:+ ext)) evs.
Proof.
  open_blocks. each_path; flatten_trace; eexists _, _, _; (split; [reflexivity|]); each_target.
Qed.

(** The paths a call opens for writing. *)
Lemma ensure_logo_cached_targets team_obj w :
  exists evs,
    trace (snd (ensure_logo_cached P E team_obj w)) = (trace w ++ evs)%list /\
    Forall (fun ev => forall p, write_target ev = Some p ->
              p = png_path_of P (team_abbrev team_obj) \/
              p = svg_path_of P (team_abbrev team_obj) \/
              exists url path,
                team_logo_url team_obj = PStr url /\ urlparse_path P url = Ret path /\
                p = logo_file P (fmt P (team_abbrev team_obj) +:+ ext_of P path)) evs.
Proof.
  pose proof (ensure_logo_cached_cases P E team_obj w) as Hc. cbv zeta in Hc.
  assert (Hnone : forall r, ensure_logo_cached P E team_obj w = (r, w) ->
            exists evs, trace (snd (ensure_logo_cached P E team_obj w)) = (trace w ++ evs)%list /\
                        Forall (fun ev => forall p, write_target ev = Some p ->
              p = png_path_of P (team_abbrev team_obj) \/
              p = svg_path_of P (team_abbrev team_obj) \/
              exists url path,
                team_logo_url team_obj = PStr url /\ urlparse_path P url = Ret path /\
                p = logo_file P (fmt P (team_abbrev team_obj) +:+ ext_of P path)) evs).
  { intros r ->. exists []. cbn. by rewrite app_nil_r. }
  destruct (logo_lookup_error P team_obj); [by eapply Hnone|].
  destruct (negb _ || negb _); [by eapply Hnone|].
  destruct (bool_decide (is_Some (fs w !! png_path_of P _))); [by eapply Hnone|].
  destruct (bool_decide (is_Some (fs w !! svg_path_of P _))).
  - rewrite Hc. destruct (convert_existing_targets (team_abbrev team_obj) w)
      as (r & f & evs & -> & Hall). exists evs. split; [done|].
    eapply Forall_impl; [exact Hall|]. intros ev Hev p Hp. left. by apply Hev.
  - destruct Hc as (url & path & Hu & Hpath & ->).
    destruct (download_and_store_targets (team_abbrev team_obj) url (ext_of P path) w)
      as (r & f & evs & -> & Hall). exists evs. split; [done|].
    eapply Forall_impl; [exact Hall|]. intros ev Hev p Hp.
    destruct (Hev p Hp) as [-> | [-> | ->]]; [by left|by right; left|].
    right; right. by exists url, path.
Qed.

(** X2: [ensure_logo_cached] removes no file, and every path it opens
    for writing ([open(..., 'wb')], the [write_to] of [cairosvg.svg2png],
    the file of [renderPM.drawToFile]) is [os.path.join(LOGO_DIR, ...)] of
    [<abbrev>.png], of [<abbrev>.svg] or of [<abbrev><ext>] with the
    extension of the logo URL. *)
Theorem ensure_logo_cached_write_targets team_obj w :
  (forall p, is_Some (fs w !! p) ->
             is_Some (fs (world_after (ensure_logo_cached P E team_obj) w) !! p)) /\
  Forall (fun ev => forall p, write_target ev = Some p ->
            p = png_path_of P (team_abbrev team_obj) \/
            p = svg_path_of P (team_abbrev team_obj) \/
            exists url path,
              team_logo_url team_obj = PStr url /\ urlparse_path P url = Ret path /\
              p = logo_file P (fmt P (team_abbrev team_obj) +:+ ext_of P path))
         (events_of (ensure_logo_cached P E team_obj) w).
Proof.
  split.
  - intros p. unfold world_after.
    destruct (ensure_logo_cached_shape team_obj w) as [(r & -> & Hr)|[->|(url & path & _ & ->)]].
    + done.
    + apply convert_existing_keeps.
    + apply download_and_store_keeps.
  - unfold events_of, new_events.
    destruct (ensure_logo_cached_targets team_obj w) as (evs & -> & Hall).
    by rewrite drop_app_length.
Qed.

(** X3: a call makes at most one HTTP request, and only to the logo URL of
    the team object ([darkLogo] when it is set, else [logo]). *)
Theorem ensure_logo_cached_single_download team_obj w :
  List.filter is_download (events_of (ensure_logo_cached P E team_obj) w) = [] \/
  exists url ok,
    team_logo_url team_obj = PStr url /\
    List.filter is_download (events_of (ensure_logo_cached P E team_obj) w) =
      [EvHttpGet url ok].
Proof.
  unfold events_of.
  destruct (ensure_logo_cached_shape team_obj w) as [(r & -> & Hr)|[->|(url & path & Hu & ->)]].
  - left. cbn. by rewrite new_events_refl.
  - left. destruct (convert_existing_downloads (team_abbrev team_obj) w)
      as (r & f & evs & -> & Hdl). cbn [snd]. by rewrite new_events_mk.
  - right. destruct (download_and_store_downloads (team_abbrev team_obj) url (ext_of P path) w)
      as (r & f & evs & ok & -> & Hdl). exists url, ok. cbn [snd].
    by rewrite new_events_mk.
Qed.

(** X4: an asset that is not an SVG is stored under [<abbrev><ext>] exactly
    as it was downloaded, with one request and one write and no
    conversion; its path is returned when the extension is [.png], [.jpg]
    or [.jpeg] (in any case), and [None] otherwise. *)
Theorem ensure_logo_cached_stores_download team_obj url path content w :
  py_truthy (team_abbrev team_obj) = true ->
  team_logo_url team_obj = PStr url ->
  url <> "" ->
  urlparse_path P url = Ret path ->
  String.eqb (str_lower (ext_of P path)) ".svg" = false ->
  fs w !! png_path_of P (team_abbrev team_obj) = None ->
  fs w !! svg_path_of P (team_abbrev team_obj) = None ->
  requests_get_content E (now w) url = inr content ->
  open_write E (S (now w))
             (logo_file P (fmt P (team_abbrev team_obj) +:+ ext_of P path)) content = WriteOk ->
  ensure_logo_cached P E team_obj w =
    (Ret (if is_raster_ext (ext_of P path)
          then Some (logo_file P (fmt P (team_abbrev team_obj) +:+ ext_of P path))
          else None),
     {| fs := <[logo_file P (fmt P (team_abbrev team_obj) +:+ ext_of P path) := content]> (fs w);
        trace := trace w ++
                 [EvHttpGet url true;
                  EvWrite (logo_file P (fmt P (team_abbrev team_obj) +:+ ext_of P path)) true] |}).
Proof.
  intros Ha Hu Hne Hpath Hext Hpng Hsvg Hget Hwrite.
  pose proof (ensure_logo_cached_cases P E team_obj w) as Hc. cbv zeta in Hc.
  unfold logo_lookup_error in Hc. rewrite Hu in Hc. cbn [py_truthy] in Hc.
  apply String.eqb_neq in Hne. rewrite Ha, Hne, Hpath in Hc. cbn [negb orb] in Hc.
  rewrite !bool_decide_eq_false_2 in Hc
    by (first [rewrite Hpng | rewrite Hsvg]; by intros [? ?]).
  destruct Hc as (url' & path' & [= <-] & Hpath' & ->).
  rewrite Hpath in Hpath'. injection Hpath' as <-.
  unfold download_and_store. unfold bind at 1, requests_get at 1.
  rewrite Hget. cbn [came_back]. rewrite Hext.
  unfold bind at 1, go_on, ret at 1. unfold bind, write_file, now, set_trace.
  cbn [fs trace]. rewrite length_app. cbn [length].
  replace (length (trace w) + 1)%nat with (S (now w)) by (unfold now; lia).
  rewrite Hwrite. rewrite <- !app_assoc. cbn [app].
  by destruct (is_raster_ext (ext_of P path)).
Qed.

(** X5: without a converter library nothing is ever converted, and a team
    without a cached PNG gets a logo path only when its URL ends in a
    raster extension. *)
Theorem ensure_logo_cached_without_converter team_obj w :
  cairosvg_loaded P = false ->
  svglib_available P = false ->
  existsb is_conversion (events_of (ensure_logo_cached P E team_obj) w) = false /\
  (fs w !! png_path_of P (team_abbrev team_obj) = None ->
   forall q,
     result_of (ensure_logo_cached P E team_obj) w = Ret (Some q) ->
     exists url path,
       team_logo_url team_obj = PStr url /\ urlparse_path P url = Ret path /\
       is_raster_ext (ext_of P path) = true /\
       q = logo_file P (fmt P (team_abbrev team_obj) +:+ ext_of P path)).
Proof.
  intros Hcairo Hsvglib. unfold events_of, result_of.
  pose proof (ensure_logo_cached_cases P E team_obj w) as Hc. cbv zeta in Hc.
  destruct (logo_lookup_error P team_obj).
  { rewrite Hc. cbn. rewrite new_events_refl. split; [done|]. intros _ q ?; discriminate. }
  destruct (negb _ || negb _).
  { rewrite Hc. cbn. rewrite new_events_refl. split; [done|]. intros _ q ?; discriminate. }
  destruct (bool_decide (is_Some (fs w !! png_path_of P _))) eqn:Hpng.
  { rewrite Hc. cbn. rewrite new_events_refl. split; [done|].
    apply bool_decide_eq_true in Hpng. intros Hnone. rewrite Hnone in Hpng.
    by destruct Hpng. }
  destruct (bool_decide (is_Some (fs w !! svg_path_of P _))).
  - rewrite Hc. clear Hc. open_blocks. rewrite Hcairo, Hsvglib. cbn.
    unfold new_events. cbn. rewrite <- !app_assoc, drop_app_length. cbn.
    split; [done|]. intros _ q ?; discriminate.
  - destruct Hc as (url & path & Hu & Hpath & ->). clear Hpng.
    open_blocks. rewrite Hcairo, Hsvglib.
    each_path; unfold new_events; cbn; rewrite <- ?app_assoc, drop_app_length; cbn;
      (split; [done|]); intros _ q ?; simplify_eq; eauto 10.
Qed.
End Blocks.

Section Twice.
Variable P : platform.
Variable E E' : environment.

(** X6: once a call has returned the PNG of the abbreviation, a later call
    for the same team object returns it again and does nothing else,
    whatever the network and the converters do by then. *)
Theorem ensure_logo_cached_png_idempotent team_obj w w1 :
  ensure_logo_cached P E team_obj w =
    (Ret (Some (png_path_of P (team_abbrev team_obj))), w1) ->
  ensure_logo_cached P E' team_obj w1 =
    (Ret (Some (png_path_of P (team_abbrev team_obj))), w1).
Proof.
  intros Hrun.
  assert (Hfile : is_Some (fs w1 !! png_path_of P (team_abbrev team_obj)))
    by (by eapply returned_file_exists).
  pose proof (ensure_logo_cached_cases P E team_obj w) as Hc. cbv zeta in Hc.
  pose proof (ensure_logo_cached_cases P E' team_obj w1) as Hc'. cbv zeta in Hc'.
  destruct (logo_lookup_error P team_obj); [congruence|].
  destruct (negb _ || negb _); [congruence|].
  by rewrite bool_decide_eq_true_2 in Hc'.
Qed.
End Twice.

Lemma ensure_logo_cached_returns_existing_file_witness :
  result_of (ensure_logo_cached (demo_platform true true) online_env
               (mk_team "AAA" PNone (Some jpg_url))) empty_world = Ret (Some jpg_path) /\
  is_Some (fs (world_after (ensure_logo_cached (demo_platform true true) online_env
                              (mk_team "AAA" PNone (Some jpg_url))) empty_world) !! jpg_path).
Proof.
  assert (H : result_of (ensure_logo_cached (demo_platform true true) online_env
                           (mk_team "AAA" PNone (Some jpg_url))) empty_world =
              Ret (Some jpg_path)) by (vm_compute; reflexivity).
  split; [exact H|].
  exact (ensure_logo_cached_returns_existing_file _ _ _ _ _ H).
Defined.

Lemma ensure_logo_cached_write_targets_witness :
  is_Some (fs (world_after (ensure_logo_cached (demo_platform true true) online_env
                              (mk_team "BBB" PNone (Some jpg_url))) jpg_cached_world)
           !! jpg_path).
Proof.
  apply (proj1 (ensure_logo_cached_write_targets (demo_platform true true) online_env
                  (mk_team "BBB" PNone (Some jpg_url)) jpg_cached_world)).
  vm_compute. eexists. reflexivity.
Defined.

Lemma ensure_logo_cached_stores_download_witness :
  fs (snd (ensure_logo_cached (demo_platform true true) online_env
             (mk_team "AAA" PNone (Some jpg_url)) empty_world)) !! jpg_path = Some demo_jpg.
Proof.
  rewrite (ensure_logo_cached_stores_download (demo_platform true true) online_env
             (mk_team "AAA" PNone (Some jpg_url)) jpg_url "/logos/AAA.jpg" demo_jpg empty_world).
  - vm_compute; reflexivity.
  - vm_compute; reflexivity.
  - vm_compute; reflexivity.
  - discriminate.
  - vm_compute; reflexivity.
  - vm_compute; reflexivity.
  - vm_compute; reflexivity.
  - vm_compute; reflexivity.
  - vm_compute; reflexivity.
  - vm_compute; reflexivity.
Defined.

Lemma ensure_logo_cached_without_converter_witness :
  existsb is_conversion
    (events_of (ensure_logo_cached (demo_platform false false) online_env
                  (mk_team "AAA" PNone (Some svg_url))) svg_cached_world) = false.
Proof.
  apply (ensure_logo_cached_without_converter (demo_platform false false) online_env
           (mk_team "AAA" PNone (Some svg_url)) svg_cached_world); reflexivity.
Defined.

Lemma ensure_logo_cached_png_idempotent_witness :
  ensure_logo_cached (demo_platform true true) offline_env
      (mk_team "AAA" PNone (Some png_url))
      (snd (ensure_logo_cached (demo_platform true true) online_env
              (mk_team "AAA" PNone (Some png_url)) empty_world)) =
    (Ret (Some png_path),
     snd (ensure_logo_cached (demo_platform true true) online_env
            (mk_team "AAA" PNone (Some png_url)) empty_world)).
Proof.
  apply (ensure_logo_cached_png_idempotent (demo_platform true true) online_env offline_env
           (mk_team "AAA" PNone (Some png_url)) empty_world).
  vm_compute; reflexivity.
Defined.
End LogoCacheMore.


Module FetchMore.
Import Py NHLscores NHLscoresFacts Notions LogoCacheMore.

Section Footprint.
Variable P : platform.
Variable E : environment.

(** A relation between the worlds before and after that every call of
    [ensure_logo_cached] on an allowed team object respects. *)
Variable Inv : world -> world -> Prop.
Variable allowed : pyval -> Prop.
Hypothesis Inv_refl : forall w, Inv w w.
Hypothesis Inv_trans : forall w1 w2 w3, Inv w1 w2 -> Inv w2 w3 -> Inv w1 w3.
Hypothesis ensure_Inv :
  forall team_obj w, allowed team_obj -> Inv w (snd (ensure_logo_cached P E team_obj w)).

Lemma process_game_Inv game acc w :
  Forall allowed (teams_of game) ->
  Inv w (snd (process_game P E game acc w)).
Proof.
  intros Hall. apply Forall_cons in Hall as [Ha Hh]. apply Forall_cons in Hh as [Hh _].
  unfold process_game.
  destruct game as [| | | | |kvs]; try apply Inv_refl.
  cbn [game_team] in Ha, Hh. unfold bind at 1 2. cbn [py_get lift].
  destruct (dict_get kvs "awayTeam" (PDict [])) as [| | | | |akvs]; try apply Inv_refl.
  destruct (dict_get kvs "homeTeam" (PDict [])) as [| | | | |hkvs]; try apply Inv_refl.
  unfold bind at 1 2 3 4 5 6. cbn [py_get lift]. unfold bind.
  pose proof (ensure_Inv (PDict akvs) w Ha) as H1.
  destruct (ensure_logo_cached P E (PDict akvs) w) as [[al|e] w1]; [|exact H1].
  pose proof (ensure_Inv (PDict hkvs) w1 Hh) as H2. cbn [snd] in H1.
  destruct (ensure_logo_cached P E (PDict hkvs) w1) as [[hl|e] w2];
    cbn [snd] in *; by eapply Inv_trans.
Qed.

Lemma process_game_not_dict game acc w :
  is_dict game = false -> snd (process_game P E game acc w) = w.
Proof. by destruct game. Qed.

Lemma for_each_games_Inv games :
  Forall (fun game => is_dict game = true -> Forall allowed (teams_of game)) games ->
  forall acc w, Inv w (snd (for_each (process_game P E) games acc w)).
Proof.
  induction 1 as [|g games Hg Hrest IH]; intros acc w; cbn [for_each]; [apply Inv_refl|].
  unfold bind.
  assert (H1 : Inv w (snd (process_game P E g acc w))).
  { destruct (is_dict g) eqn:Hd; [by apply process_game_Inv, Hg|].
    rewrite process_game_not_dict by done. apply Inv_refl. }
  destruct (process_game P E g acc w) as [[acc'|e] w1]; [|exact H1].
  eapply Inv_trans; [exact H1|apply IH].
Qed.

Lemma keys_not_dict (kvs : list (string * pyval)) :
  Forall (fun game => is_dict game = true -> Forall allowed (teams_of game))
         (map (fun kv => PStr (fst kv)) kvs).
Proof. induction kvs; constructor; [discriminate|done]. Qed.

Lemma chars_not_dict s :
  Forall (fun game => is_dict game = true -> Forall allowed (teams_of game)) (str_chars s).
Proof. induction s; constructor; [discriminate|done]. Qed.

Lemma process_day_Inv date_str day acc w :
  Forall (fun game => Forall allowed (teams_of game)) (day_games date_str day) ->
  Inv w (snd (process_day P E date_str day acc w)).
Proof.
  intros Hall. unfold process_day.
  destruct day as [| | | | |kvs]; try apply Inv_refl.
  cbn [day_games] in Hall. unfold bind at 1. cbn [py_get lift].
  destruct (py_eqb_str date_str _); cbn [negb]; [|apply Inv_refl].
  unfold bind at 1. cbn [py_contains lift].
  destruct (dict_lookup "games" kvs) as [v|] eqn:Hgames; cbn; [|apply Inv_refl].
  unfold bind. cbn [lift]. rewrite Hgames. cbn [rbind].
  destruct v as [| | |s|games|gkvs]; cbn [py_iter list_items] in *; try apply Inv_refl.
  - apply for_each_games_Inv, chars_not_dict.
  - apply for_each_games_Inv. eapply Forall_impl; [exact Hall|]. auto.
  - apply for_each_games_Inv, keys_not_dict.
Qed.

Lemma process_day_not_dict date_str day acc w :
  is_dict day = false -> snd (process_day P E date_str day acc w) = w.
Proof. by destruct day. Qed.

Lemma for_each_days_Inv date_str days :
  Forall (fun game => Forall allowed (teams_of game))
         (flat_map (day_games date_str) days) ->
  forall acc w, Inv w (snd (for_each (process_day P E date_str) days acc w)).
Proof.
  induction days as [|d days IH]; intros Hall acc w; cbn [for_each]; [apply Inv_refl|].
  cbn [flat_map] in Hall. apply Forall_app in Hall as [Hd Hrest].
  unfold bind. pose proof (process_day_Inv date_str d acc w Hd) as H1.
  destruct (process_day P E date_str d acc w) as [[acc'|e] w1]; [|exact H1].
  eapply Inv_trans; [exact H1|by apply IH].
Qed.

Lemma for_each_days_not_dict date_str days :
  Forall (fun day => is_dict day = false) days ->
  forall acc w, snd (for_each (process_day P E date_str) days acc w) = w.
Proof.
  destruct 1 as [|d days Hd _]; intros acc w; [done|]. cbn [for_each]. unfold bind.
  by destruct d.
Qed.

Lemma chars_are_not_dicts s : Forall (fun day => is_dict day = false) (str_chars s).
Proof. induction s as [|c s IH]; cbn [str_chars]; constructor; [done|exact IH]. Qed.

Lemma keys_are_not_dicts (kvs : list (string * pyval)) :
  Forall (fun day => is_dict day = false) (map (fun kv => PStr (fst kv)) kvs).
Proof. induction kvs as [|kv kvs IH]; cbn [map]; constructor; [done|exact IH]. Qed.

(** Whatever the response, [fetch_games] changes the world only through
    the calls of [ensure_logo_cached] for the teams of the games of the
    requested date. *)
Lemma fetch_games_on_Inv date_str data w :
  Forall (fun game => Forall allowed (teams_of game)) (response_games date_str data) ->
  Inv w (snd (fetch_games_on P E date_str data w)).
Proof.
  intros Hall. unfold fetch_games_on.
  destruct data as [| | |s|xs|kvs]; try apply Inv_refl.
  - unfold bind. cbn [py_contains lift]. destruct (str_contains _ _); apply Inv_refl.
  - unfold bind. cbn [py_contains lift]. destruct (existsb _ _); apply Inv_refl.
  - cbn [response_games] in Hall. unfold bind at 1. cbn [py_contains lift].
    destruct (dict_lookup "gameWeek" kvs) as [v|] eqn:Hweek; cbn [bool_decide];
      [|rewrite bool_decide_eq_false_2 by (by intros [? ?]); apply Inv_refl].
    rewrite bool_decide_eq_true_2 by eauto.
    unfold bind at 1. cbn [py_subscript lift]. rewrite Hweek. cbn [andb].
    destruct (py_truthy v); [|apply Inv_refl]. unfold bind. cbn [lift].
    destruct v as [| | |s|days|wkvs]; cbn [py_iter list_items] in *; try apply Inv_refl.
    + rewrite for_each_days_not_dict; [apply Inv_refl|apply chars_are_not_dicts].
    + by apply for_each_days_Inv.
    + rewrite for_each_days_not_dict; [apply Inv_refl|apply keys_are_not_dicts].
Qed.
End Footprint.

Section FetchFootprint.
Variable P : platform.
Variable E : environment.

Lemma ensure_keeps_files team_obj w p :
  is_Some (fs w !! p) -> is_Some (fs (snd (ensure_logo_cached P E team_obj w)) !! p).
Proof.
  destruct (ensure_logo_cached_shape P E team_obj w) as [(r & -> & Hr)|[->|(url & path & _ & ->)]].
  - done.
  - apply convert_existing_keeps.
  - apply download_and_store_keeps.
Qed.

Lemma ensure_trace_downloads team_obj w :
  exists evs,
    trace (snd (ensure_logo_cached P E team_obj w)) = (trace w ++ evs)%list /\
    forall url ok, In (EvHttpGet url ok) evs -> team_logo_url team_obj = PStr url.
Proof.
  destruct (ensure_logo_cached_shape P E team_obj w) as [(r & -> & Hr)|[->|(url & path & Hu & ->)]].
  - exists []. cbn. by rewrite app_nil_r.
  - destruct (convert_existing_downloads P E (team_abbrev team_obj) w)
      as (r & f & evs & -> & Hdl). exists evs. split; [done|].
    intros u ok Hin. assert (In (EvHttpGet u ok) (List.filter is_download evs)) as Hf
        by (by apply filter_In).
    by rewrite Hdl in Hf.
  - destruct (download_and_store_downloads P E (team_abbrev team_obj) url (ext_of P path) w)
      as (r & f & evs & ok' & -> & Hdl). exists evs. split; [done|].
    intros u ok Hin. assert (In (EvHttpGet u ok) (List.filter is_download evs)) as Hf
        by (by apply filter_In).
    rewrite Hdl in Hf. destruct Hf as [[= -> _]|[]]. exact Hu.
Qed.

(** X7: [fetch_games] removes no file, and every path it opens for
    writing is [os.path.join(LOGO_DIR, <abbrev><suffix>)] for the
    abbreviation of a team playing on the requested date (for every
    response, also when the call ends in an exception). *)
Theorem fetch_games_write_targets date_str data w :
  (forall p, is_Some (fs w !! p) ->
             is_Some (fs (world_after (fetch_games_on P E date_str data) w) !! p)) /\
  Forall (fun ev => forall p, write_target ev = Some p ->
            exists game team_obj x,
              In game (response_games date_str data) /\ In team_obj (teams_of game) /\
              p = logo_file P (fmt P (team_abbrev team_obj) +:+ x))
         (events_of (fetch_games_on P E date_str data) w).
Proof.
  unfold world_after, events_of. split.
  - intros p.
    apply (fetch_games_on_Inv P E (fun w1 w2 => is_Some (fs w1 !! p) -> is_Some (fs w2 !! p))
             (fun _ => True)); [auto|auto| |].
    + intros t w0 _. apply ensure_keeps_files.
    + apply Forall_forall. intros g _. by apply Forall_forall.
  - set (good := fun ev : event => forall p, write_target ev = Some p ->
            exists game team_obj x,
              In game (response_games date_str data) /\ In team_obj (teams_of game) /\
              p = logo_file P (fmt P (team_abbrev team_obj) +:+ x)).
    assert (Hinv : exists evs,
               trace (snd (fetch_games_on P E date_str data w)) = (trace w ++ evs)%list /\
               Forall good evs).
    { apply (fetch_games_on_Inv P E
               (fun w1 w2 => exists evs, trace w2 = (trace w1 ++ evs)%list /\ Forall good evs)
               (fun t => exists game, In game (response_games date_str data) /\
                                      In t (teams_of game))).
      - intros w0. exists []. by rewrite app_nil_r.
      - intros w1 w2 w3 (e1 & H1 & Q1) (e2 & H2 & Q2). exists (e1 ++ e2)%list.
        split; [by rewrite H2, H1, app_assoc|]. by apply Forall_app.
      - intros t w0 (g & Hg & Ht).
        destruct (ensure_logo_cached_targets P E t w0) as (evs & Htr & Hall).
        exists evs. split; [done|]. eapply Forall_impl; [exact Hall|].
        intros ev Hev p Hp. exists g, t.
        destruct (Hev p Hp) as [-> | [-> | (url & path & _ & _ & ->)]]; eauto.
      - apply Forall_forall. intros g Hg. apply Forall_forall. intros t Ht.
        exists g. split; by apply list_elem_of_In. }
    destruct Hinv as (evs & Htrace & Hall).
    unfold new_events. by rewrite Htrace, drop_app_length.
Qed.

(** X8: every HTTP request [fetch_games] makes after the schedule is known
    goes to the logo URL of a team playing on the requested date. *)
Theorem fetch_games_downloads_team_logos_only date_str data w url ok :
  In (EvHttpGet url ok) (events_of (fetch_games_on P E date_str data) w) ->
  exists game team_obj,
    In game (response_games date_str data) /\ In team_obj (teams_of game) /\
    team_logo_url team_obj = PStr url.
Proof.
  unfold events_of.
  set (from_team := fun u : string =>
         exists game team_obj,
           In game (response_games date_str data) /\ In team_obj (teams_of game) /\
           team_logo_url team_obj = PStr u).
  assert (Hinv : exists evs,
             trace (snd (fetch_games_on P E date_str data w)) = (trace w ++ evs)%list /\
             forall u o, In (EvHttpGet u o) evs -> from_team u).
  { apply (fetch_games_on_Inv P E
             (fun w1 w2 => exists evs, trace w2 = (trace w1 ++ evs)%list /\
                                       forall u o, In (EvHttpGet u o) evs -> from_team u)
             (fun t => exists game, In game (response_games date_str data) /\
                                    In t (teams_of game))).
    - intros w0. exists []. by rewrite app_nil_r.
    - intros w1 w2 w3 (e1 & H1 & Q1) (e2 & H2 & Q2). exists (e1 ++ e2)%list.
      split; [by rewrite H2, H1, app_assoc|].
      intros u o [Hin|Hin]%in_app_or; eauto.
    - intros t w0 (g & Hg & Ht).
      destruct (ensure_trace_downloads t w0) as (evs & Htr & Hdl).
      exists evs. split; [done|]. intros u o Hin. exists g, t. eauto.
    - apply Forall_forall. intros g Hg. apply Forall_forall. intros t Ht.
      exists g. split; by apply list_elem_of_In. }
  destruct Hinv as (evs & Htrace & Hall).
  unfold new_events. rewrite Htrace, drop_app_length. apply Hall.
Qed.

Lemma game_entry_text a h sa sh st al hl :
  fst (game_entry P a h sa sh st al hl) =
    line_of_record P (snd (game_entry P a h sa sh st al hl)).
Proof. unfold game_entry, line_of_record. by destruct (is_not_none sa && is_not_none sh). Qed.

Lemma lines_match_records date_str data w lines records w' :
  fetch_games_on P E date_str data w = (Ret (lines, records), w') ->
  lines = map (line_of_record P) records.
Proof.
  intros Hrun.
  assert (Hok : response_ok P date_str data = true).
  { rewrite <- (fetch_games_on_returns_iff P E date_str data w). by rewrite Hrun. }
  destruct (fetch_games_on_ok P E date_str data w Hok) as (es & w'' & Hrun' & Hall).
  rewrite Hrun in Hrun'. injection Hrun' as -> -> _.
  clear Hrun. induction Hall as [|g e gs es (al & hl & ->) _ IH]; [done|].
  cbn [map]. f_equal; [apply game_entry_text|exact IH].
Qed.

(** X9: the two lists [fetch_games] returns go together: there is one record
    per game of the requested date, and each summary line is the text of
    the record at the same position. *)
Theorem fetch_games_lines_match_records date_str data w lines records w' :
  fetch_games_on P E date_str data w = (Ret (lines, records), w') ->
  lines = map (line_of_record P) records /\
  length records = length (response_games date_str data).
Proof.
  intros Hrun. split; [by eapply lines_match_records|].
  assert (Hok : response_ok P date_str data = true).
  { rewrite <- (fetch_games_on_returns_iff P E date_str data w). by rewrite Hrun. }
  destruct (fetch_games_on_ok P E date_str data w Hok) as (es & w'' & Hrun' & Hall).
  rewrite Hrun in Hrun'. injection Hrun' as _ -> _.
  symmetry. rewrite length_map. by eapply Forall2_length.
Qed.

Lemma fetch_games_same_length date_str w lines records w' :
  fetch_games P E date_str w = (Ret (lines, records), w') ->
  length lines = length records.
Proof.
  unfold fetch_games. destruct (requests_get_json E _ _) as [data|e]; [|done].
  intros Hrun. apply lines_match_records in Hrun as ->. by rewrite length_map.
Qed.

(** X10: when the response holds no game for the requested date, the world is
    left as it was; if the response is well formed the call returns two
    empty lists. *)
Theorem fetch_games_without_games date_str data w :
  response_games date_str data = [] ->
  world_after (fetch_games_on P E date_str data) w = w /\
  (response_ok P date_str data = true ->
   result_of (fetch_games_on P E date_str data) w = Ret ([], [])).
Proof.
  intros Hnone. unfold world_after, result_of. split.
  - symmetry.
    apply (fetch_games_on_Inv P E eq (fun _ => False)); [done|congruence|done|].
    by rewrite Hnone.
  - intros Hok. destruct (fetch_games_on_ok P E date_str data w Hok) as (es & w' & -> & Hall).
    rewrite Hnone in Hall. apply Forall2_nil_inv_l in Hall as ->. done.
Qed.

(** X12: the default of [game.get('awayTeam', {})] covers a missing key only:
    a game whose team entry is present but not an object (for instance
    null) makes the call raise [AttributeError] before any logo is looked
    up, while a game without team entries is listed with [None] for the
    abbreviations and the logos. *)
Theorem process_game_team_entries kvs acc w :
  (is_dict (dict_get kvs "awayTeam" (PDict [])) = false \/
   is_dict (dict_get kvs "homeTeam" (PDict [])) = false ->
   process_game P E (PDict kvs) acc w = (Raise AttributeError, w)) /\
  (dict_lookup "awayTeam" kvs = None -> dict_lookup "homeTeam" kvs = None ->
   process_game P E (PDict kvs) acc w =
     (Ret ((fst acc ++
            ["None vs None - " +:+ time_display_of P (dict_get kvs "startTimeUTC" PNone)])%list,
           (snd acc ++
            [{| away_abbrev := PNone; home_abbrev := PNone;
                away_score := PNone; home_score := PNone;
                away_logo := None; home_logo := None;
                is_scheduled := true;
                start_time :=
                  Some (time_display_of P (dict_get kvs "startTimeUTC" PNone)) |}])%list),
      w)).
Proof.
  split.
  - unfold process_game. unfold bind at 1 2. cbn [py_get lift].
    destruct (dict_get kvs "awayTeam" (PDict [])) as [| | | | |akvs];
      try (intros _; reflexivity).
    destruct (dict_get kvs "homeTeam" (PDict [])) as [| | | | |hkvs];
      try (intros _; reflexivity).
    by intros [|].
  - intros Ha Hh. unfold process_game, bind, lift, py_get.
    unfold dict_get. rewrite Ha, Hh. reflexivity.
Qed.
End FetchFootprint.

Lemma fetch_games_write_targets_witness :
  is_Some (fs (world_after (fetch_games_on (demo_platform true true) online_env demo_date
                              visitors_response) jpg_cached_world) !! jpg_path).
Proof.
  apply (proj1 (fetch_games_write_targets (demo_platform true true) online_env demo_date
                  visitors_response jpg_cached_world)).
  vm_compute. eexists. reflexivity.
Defined.

Lemma process_game_team_entries_witness :
  process_game (demo_platform true true) online_env
               (PDict [("awayTeam", PNone); ("homeTeam", mk_team "BBB" PNone None)])
               ([], []) empty_world = (Raise AttributeError, empty_world).
Proof.
  apply (proj1 (process_game_team_entries (demo_platform true true) online_env
                  [("awayTeam", PNone); ("homeTeam", mk_team "BBB" PNone None)]
                  ([], []) empty_world)).
  left. reflexivity.
Defined.

Lemma fetch_games_downloads_team_logos_only_witness :
  exists game team_obj,
    In game (response_games demo_date logo_response) /\ In team_obj (teams_of game) /\
    team_logo_url team_obj = PStr jpg_url.
Proof.
  apply (fetch_games_downloads_team_logos_only (demo_platform true true) online_env
           demo_date logo_response empty_world jpg_url true).
  vm_compute. left. reflexivity.
Defined.

Lemma fetch_games_lines_match_records_witness :
  exists lines records w',
    fetch_games_on (demo_platform true true) online_env demo_date mixed_response empty_world =
      (Ret (lines, records), w') /\
    lines = map (line_of_record (demo_platform true true)) records /\
    length records = 5%nat.
Proof.
  eexists _, _, _. split; [vm_compute; reflexivity|].
  eapply (fetch_games_lines_match_records (demo_platform true true) online_env
            demo_date mixed_response empty_world).
  vm_compute; reflexivity.
Defined.

Lemma fetch_games_without_games_witness :
  response_games "2024-02-01" mixed_response = [] /\
  world_after (fetch_games_on (demo_platform true true) online_env "2024-02-01" mixed_response)
              jpg_cached_world = jpg_cached_world.
Proof.
  assert (H : response_games "2024-02-01" mixed_response = []) by (vm_compute; reflexivity).
  split; [exact H|].
  exact (proj1 (fetch_games_without_games (demo_platform true true) online_env
                  "2024-02-01" mixed_response jpg_cached_world H)).
Defined.
End FetchMore.

(** ** The window *)

Module NHLwindowFacts.
Import Py NHLscores NHLwindow FetchMore.

Section Window.
Variable P : platform.
Variable E : environment.
Variable S : screen.

(** A logo cell leaves the rows and the timers alone; it is the text
    cell, or an image whose file exists, and then that file is added to
    the references kept. *)
Lemma logo_cell_spec w logo abbrev padx g :
  exists l n,
    logo_cell S w logo abbrev padx g =
      (l, repaint g (container g) (images_refs g ++ omap lbl_image [l]) n) /\
    is_cell w logo abbrev padx l.
Proof.
  unfold logo_cell, logo_usable, repaint. destruct g.
  destruct logo as [path|]; cbn.
  - destruct (negb (String.eqb path "") && bool_decide (is_Some (fs w !! path)) &&
              has_raster_suffix path) eqn:Hok.
    + apply andb_true_iff in Hok as [[_ Hfile]%andb_true_iff Hsuffix].
      apply bool_decide_eq_true in Hfile.
      destruct (open_image S _ path).
      * eexists (photo_label path padx), _. split; [reflexivity|]. right; eauto.
      * eexists (abbrev_label abbrev padx), _. cbn. rewrite app_nil_r.
        split; [reflexivity|]. by left.
    + eexists (abbrev_label abbrev padx), _. cbn. rewrite app_nil_r.
      split; [reflexivity|]. by left.
  - eexists (abbrev_label abbrev padx), _. cbn. rewrite app_nil_r.
    split; [reflexivity|]. by left.
Qed.

Lemma game_labels_spec family w r g :
  exists away home n,
    game_labels P S family w r g =
      ([away; center_label family (center_text P r); home],
       repaint g (container g)
               (images_refs g ++ omap lbl_image [away; center_label family (center_text P r); home])
               n) /\
    is_cell w (away_logo r) (away_abbrev r) (0, 10)%nat away /\
    is_cell w (home_logo r) (home_abbrev r) (10, 0)%nat home.
Proof.
  unfold game_labels.
  destruct (logo_cell_spec w (away_logo r) (away_abbrev r) (0, 10)%nat g)
    as (a & n1 & -> & Ha).
  destruct (logo_cell_spec w (home_logo r) (home_abbrev r) (10, 0)%nat
              (repaint g (container g) (images_refs g ++ omap lbl_image [a]) n1))
    as (h & n2 & -> & Hh).
  exists a, h, n2. split; [|done]. f_equal. unfold repaint. cbn [images_refs container].
  f_equal. rewrite <- app_assoc. f_equal. cbn. by destruct (lbl_image a).
Qed.

Lemma add_row_spec w g r :
  exists wd n,
    add_row P S w g r =
      repaint g (container g ++ [wd]) (images_refs g ++ images_in [wd]) n /\
    is_row_of P "Angular" w r wd.
Proof.
  unfold add_row. destruct (game_labels_spec "Angular" w r g) as (a & h & n & -> & Ha & Hh).
  exists (Row [a; center_label "Angular" (center_text P r); h]), n. split.
  - unfold set_container, repaint, images_in. cbn. by rewrite app_nil_r.
  - by exists a, h.
Qed.

Lemma repaint_id g : repaint g (container g) (images_refs g) (ticks g) = g.
Proof. by destruct g. Qed.

Lemma repaint_repaint g c refs n c' refs' n' :
  repaint (repaint g c refs n) c' refs' n' = repaint g c' refs' n'.
Proof. done. Qed.

Lemma add_rows_spec w rs : forall g,
  exists wds n,
    fold_left (add_row P S w) rs g =
      repaint g (container g ++ wds) (images_refs g ++ images_in wds) n /\
    Forall2 (is_row_of P "Angular" w) rs wds.
Proof.
  induction rs as [|r rs IH]; intros g; cbn [fold_left].
  - exists [], (ticks g). unfold images_in. cbn. by rewrite !app_nil_r, repaint_id.
  - destruct (add_row_spec w g r) as (wd & n & -> & Hrow).
    destruct (IH (repaint g (container g ++ [wd]) (images_refs g ++ images_in [wd]) n))
      as (wds & n' & -> & Hall).
    exists (wd :: wds), n'. split; [|by constructor].
    rewrite repaint_repaint. cbn [container images_refs repaint].
    rewrite <- !app_assoc. f_equal. unfold images_in. cbn. by rewrite app_nil_r.
Qed.

(** [refresh_games] never touches the timers, the "Live Games" box or
    the job. *)
Lemma refresh_games_keeps_timers g w :
  let g' := snd (fst (refresh_games P E S g w)) in
  pending g' = pending g /\ auto_refresh_var g' = auto_refresh_var g /\
  auto_refresh_job g' = auto_refresh_job g /\ next_id g' = next_id g.
Proof.
  unfold refresh_games.
  destruct (fetch_games P E (date_var g) w) as [[[lines [|r rs]]|e] w']; cbn; try done.
  destruct (add_rows_spec w' (r :: rs)
              (set_images_refs (set_title (set_container g [])
                                          ("NHL Scores - " +:+ date_var g)) []))
    as (wds & n & Hfold & _).
  cbn [fold_left] in Hfold. by rewrite Hfold.
Qed.

(** X13: after a refresh that found games, the window lists them: one row
    per record, in order, each made of the away cell, the text and the home
    cell; the title names the date; the references kept are exactly the
    images on display. *)
Theorem refresh_games_lists_records g w lines r rs w' :
  fetch_games P E (date_var g) w = (Ret (lines, r :: rs), w') ->
  exists g',
    refresh_games P E S g w = (Ret tt, g', w') /\
    title g' = "NHL Scores - " +:+ date_var g /\
    Forall2 (is_row_of P "Angular" w') (r :: rs) (container g') /\
    images_refs g' = shown_images g'.
Proof.
  intros Hfetch. unfold refresh_games. rewrite Hfetch.
  destruct (add_rows_spec w' (r :: rs)
              (set_images_refs (set_title (set_container g [])
                                          ("NHL Scores - " +:+ date_var g)) []))
    as (wds & n & -> & Hall).
  eexists. split; [reflexivity|]. cbn. split; [done|]. split; [exact Hall|done].
Qed.

Lemma refresh_games_refs_cover g w :
  refs_cover (snd (fst (refresh_games P E S g w))).
Proof.
  unfold refresh_games.
  destruct (fetch_games P E (date_var g) w) as [[[lines [|r rs]]|e] w'] eqn:Hfetch;
    cbn [fst snd]; try (by intros path []).
  destruct (add_rows_spec w' (r :: rs)
              (set_images_refs (set_title (set_container g [])
                                          ("NHL Scores - " +:+ date_var g)) []))
    as (wds & n & Hfold & _).
  rewrite Hfold. by intros path.
Qed.

Lemma filter_cancel id (l : list (nat * callback)) :
  List.filter is_auto_timer (List.filter (fun t => negb (Nat.eqb (fst t) id)) l) =
  List.filter (fun t => negb (Nat.eqb (fst t) id)) (List.filter is_auto_timer l).
Proof.
  induction l as [|t ts IH]; [done|]. cbn [List.filter].
  destruct (negb (fst t =? id)%nat) eqn:Hid, (is_auto_timer t) eqn:Hauto;
    cbn [List.filter]; rewrite ?Hid, ?Hauto; by rewrite IH.
Qed.

Ltac show_pending :=
  unfold timers_tidy, auto_timers, after_cancel, after, set_pending, set_auto_refresh_job,
    set_auto_refresh_var, set_date_var, tick in *;
  cbn [pending auto_refresh_var auto_refresh_job fst snd] in *.

Lemma cancelled_is_tidy id g : timers_tidy g -> timers_tidy (after_cancel id g).
Proof.
  show_pending. rewrite filter_cancel.
  intros [->|(id' & -> & Hv & Hj)]; [by left|]. cbn.
  destruct (negb (id' =? id)%nat); [right; by exists id'|by left].
Qed.

Lemma fired_leaves_none id g :
  timers_tidy g -> In (id, CbAutoRefresh) (pending g) -> auto_timers (after_cancel id g) = [].
Proof.
  intros Htidy Hin.
  assert (Hauto : In (id, CbAutoRefresh) (auto_timers g)) by (by apply filter_In).
  show_pending. rewrite filter_cancel.
  destruct Htidy as [Hnone|(id' & Hone & _)]; [by rewrite Hnone in Hauto|].
  rewrite Hone in *. destruct Hauto as [[= ->]|[]]. cbn. by rewrite Nat.eqb_refl.
Qed.

(** A refresh, then [root.after(30000, auto_refresh)] and the assignment
    of the job when it succeeded, from a window without such a timer. *)
Lemma refresh_then_schedule g w :
  auto_timers g = [] -> auto_refresh_var g = true ->
  forall r g1 w1, refresh_games P E S g w = (r, g1, w1) ->
  timers_tidy
    (snd (fst (match r with
               | Raise e => (Raise e, g1, w1)
               | Ret _ =>
                   let '(id, g2) := after CbAutoRefresh g1 in
                   (Ret tt, set_auto_refresh_job g2 (Some id), w1)
               end))).
Proof.
  intros Hnone Hvar r g1 w1 Hrun.
  pose proof (refresh_games_keeps_timers g w) as (Hp & Hv & Hj & _).
  rewrite Hrun in Hp, Hv, Hj. cbn [fst snd] in Hp, Hv, Hj.
  destruct r as [[]|e]; cbn [fst snd]; show_pending; rewrite Hp.
  - right. exists (next_id g1). rewrite List.filter_app, Hnone. cbn. by rewrite Hv.
  - by left.
Qed.

Lemma find_timer id g cb :
  timer_callback id g = Some cb -> In (id, cb) (pending g).
Proof.
  unfold timer_callback. destruct (List.find _ _) as [[id' cb']|] eqn:Hfind; [|done].
  intros [= <-]. apply find_some in Hfind as [Hin Hid]. cbn in Hid.
  apply Nat.eqb_eq in Hid as ->. exact Hin.
Qed.

Lemma toggle_timers_tidy g w :
  timers_tidy g ->
  timers_tidy (snd (fst (toggle_auto_refresh P E S
                           (set_auto_refresh_var g (negb (auto_refresh_var g))) w))).
Proof.
  intros Htidy. unfold toggle_auto_refresh.
  destruct g as [dv ti co ir var job pend nid tk].
  cbn [auto_refresh_var auto_refresh_job set_auto_refresh_var] in *.
  destruct var; cbn [negb].
  - (* unticked: the job is cancelled *)
    destruct job as [id|]; cbn [fst snd].
    + left. show_pending. rewrite filter_cancel.
      destruct Htidy as [->|(id' & -> & _ & [= ->])]; [done|]. cbn. by rewrite Nat.eqb_refl.
    + left. show_pending. by destruct Htidy as [->|(id' & _ & _ & ?)].
  - (* ticked: no timer can be pending *)
    assert (Hnone : List.filter is_auto_timer pend = [])
      by (destruct Htidy as [Hnone|(id & _ & Hv & _)]; [done|done]).
    destruct (refresh_games P E S _ w) as [[r g1] w1] eqn:Hrun.
    eapply refresh_then_schedule in Hrun as H; [|exact Hnone|reflexivity].
    by destruct r as [[]|e].
Qed.

Lemma step_timers_tidy h g w :
  timers_tidy g -> timers_tidy (fst (step P E S h (g, w))).
Proof.
  intros Htidy. destruct h as [| |text|id]; cbn [step].
  - pose proof (toggle_timers_tidy g w Htidy) as H.
    by destruct (toggle_auto_refresh P E S _ w) as [[r g1] w1].
  - pose proof (refresh_games_keeps_timers g w) as (Hp & Hv & Hj & _).
    destruct (refresh_games P E S g w) as [[r g1] w1]. cbn [fst snd] in *.
    show_pending. by rewrite Hp, Hv, Hj.
  - done.
  - destruct (timer_callback id g) as [cb|] eqn:Hcb; [|done].
    apply find_timer in Hcb.
    pose proof (cancelled_is_tidy id g Htidy) as Hcancel.
    destruct cb; cbn [run_callback].
    + pose proof (refresh_games_keeps_timers (after_cancel id g) w) as (Hp & Hv & Hj & _).
      destruct (refresh_games P E S (after_cancel id g) w) as [[r g1] w1]. cbn [fst snd] in *.
      unfold timers_tidy, auto_timers in *. by rewrite Hp, Hv, Hj.
    + done.
    + (* the timer of [auto_refresh] fires: it was the only one *)
      pose proof (fired_leaves_none id g Htidy Hcb) as Hnone.
      unfold auto_refresh.
      destruct (auto_refresh_var (after_cancel id g)) eqn:Hvar; [|by left].
      destruct (refresh_games P E S _ w) as [[r g1] w1] eqn:Hrun.
      pose proof (refresh_then_schedule _ w Hnone Hvar r g1 w1 Hrun) as H.
      by destruct r as [[]|e].
Qed.

Lemma toggle_keeps_display g w :
  let out := toggle_auto_refresh P E S g w in
  refs_cover g -> refs_cover (snd (fst out)).
Proof.
  cbv zeta. unfold toggle_auto_refresh. intros Hcover.
  destruct (auto_refresh_var g).
  - pose proof (refresh_games_refs_cover (tick (set_date_var g (today S (ticks g)))) w) as H.
    destruct (refresh_games P E S _ w) as [[[[]|e] g1] w1]; cbn [fst snd] in *; exact H.
  - by destruct (auto_refresh_job g).
Qed.

Lemma step_refs_cover h g w :
  refs_cover g -> refs_cover (fst (step P E S h (g, w))).
Proof.
  intros Hcover. destruct h as [| |text|id]; cbn [step].
  - pose proof (toggle_keeps_display (set_auto_refresh_var g (negb (auto_refresh_var g))) w Hcover) as H.
    cbv zeta in H. by destruct (toggle_auto_refresh P E S _ w) as [[r g1] w1].
  - pose proof (refresh_games_refs_cover g w) as H.
    by destruct (refresh_games P E S g w) as [[r g1] w1].
  - done.
  - destruct (timer_callback id g) as [cb|]; [|done].
    destruct cb; cbn [run_callback].
    + pose proof (refresh_games_refs_cover (after_cancel id g) w) as H.
      by destruct (refresh_games P E S _ w) as [[r g1] w1].
    + done.
    + unfold auto_refresh. destruct (auto_refresh_var (after_cancel id g)); [|done].
      pose proof (refresh_games_refs_cover (after_cancel id g) w) as H.
      destruct (refresh_games P E S _ w) as [[[[]|e] g1] w1]; cbn [fst snd] in *; exact H.
Qed.

(** X14: whatever happens in the main loop, in whatever order: at most one
    [auto_refresh] timer is pending, none while "Live Games" is unticked,
    and every image on display has its reference kept. *)
Theorem main_loop_keeps_window_tidy hs g w :
  auto_timers g = [] ->
  refs_cover g ->
  let g' := fst (run_loop P E S hs (g, w)) in
  length (auto_timers g') <= 1 /\
  (auto_refresh_var g' = false -> auto_timers g' = []) /\
  refs_cover g'.
Proof.
  intros Hnone Hcover. cbv zeta.
  assert (Hinv : timers_tidy (fst (run_loop P E S hs (g, w))) /\
                 refs_cover (fst (run_loop P E S hs (g, w)))).
  { assert (Hstart : timers_tidy g) by (by left). clear Hnone.
    unfold run_loop. revert g w Hstart Hcover.
    induction hs as [|h hs IH]; intros g w Htidy Hcover; cbn [fold_left]; [done|].
    destruct (step P E S h (g, w)) as [g1 w1] eqn:Hstep.
    apply IH.
    - pose proof (step_timers_tidy h g w Htidy) as H. by rewrite Hstep in H.
    - pose proof (step_refs_cover h g w Hcover) as H. by rewrite Hstep in H. }
  destruct Hinv as [[Hn|(id & Hone & Hv & _)] Hc].
  - rewrite Hn. cbn. split; [lia|done].
  - rewrite Hone. cbn. split; [lia|]. split; [congruence|done].
Qed.

(** X15: when the schedule request fails while live updating is on, the
    timer that fired is not renewed: the rows are gone, "Live Games" stays
    ticked and no [auto_refresh] timer is pending any more. *)
Theorem failed_fetch_ends_auto_refresh id g w e w' :
  timer_callback id g = Some CbAutoRefresh ->
  auto_timers g = [(id, CbAutoRefresh)] ->
  auto_refresh_var g = true ->
  fetch_games P E (date_var g) w = (Raise e, w') ->
  exists g',
    step P E S (Fire id) (g, w) = (g', w') /\
    container g' = [] /\ auto_refresh_var g' = true /\ auto_timers g' = [].
Proof.
  intros Hcb Hone Hvar Hfetch. cbn [step]. rewrite Hcb. cbn [run_callback].
  unfold auto_refresh, refresh_games. destruct g as [dv ti co ir var job pend nid tk].
  show_pending. cbn [date_var] in *. subst var. rewrite Hfetch.
  eexists. split; [reflexivity|]. cbn [container set_container auto_refresh_var pending].
  split; [done|]. split; [done|].
  rewrite filter_cancel, Hone. cbn. by rewrite Nat.eqb_refl.
Qed.

Lemma initial_display_spec line lines front r g w :
  exists away home refs n,
    initial_display P S (line :: lines) (front ++ [r]) g w =
      (Ret tt,
       repaint g (container g ++ map (fun _ => Row []) front ++
                  [Row [away; center_label "Arial" (center_text P r); home]])
               refs n).
Proof.
  unfold initial_display. rewrite last_snoc.
  destruct (game_labels_spec "Arial" w r
              (set_container g (container g ++ map (fun _ => Row []) (front ++ [r]))))
    as (a & h & n & -> & _).
  eexists a, h, _, n. f_equal.
  unfold set_container, repaint. cbn [container images_refs date_var title auto_refresh_var
    auto_refresh_job pending next_id ticks].
  f_equal. rewrite map_app, app_assoc. cbn [map]. rewrite removelast_last.
  by rewrite <- app_assoc.
Qed.

(** X16: the first display (lines 411-447) creates one row per game but
    fills in only the last one: the labels are packed after the loop, once,
    for the last game. *)
Theorem initial_display_fills_last_row_only line lines front r g w :
  exists g',
    initial_display P S (line :: lines) (front ++ [r]) g w = (Ret tt, g') /\
    exists away home,
      container g' =
        (container g ++ map (fun _ => Row []) front ++
         [Row [away; center_label "Arial" (center_text P r); home]])%list.
Proof.
  destruct (initial_display_spec line lines front r g w) as (a & h & refs & n & ->).
  eexists. split; [reflexivity|]. by exists a, h.
Qed.

(** X17: from the first fetch to the main loop, on Windows: without the GUI
    libraries exactly one message box is shown (the lines, one per row of
    text, or the "No games" notice); with them the "No games" box is still
    shown when there is nothing to list, and the window starts with one row
    per game and the two start-up timers pending. *)
Theorem startup_message_boxes gui_libs default_date w lines records w1 :
  fetch_games P E default_date w = (Ret (lines, records), w1) ->
  exists shown_window w2,
    startup P E S gui_libs true default_date w =
      (Ret shown_window,
       match lines with
       | [] => [("No games scheduled for " +:+ default_date +:+ ".",
                 "NHL Scores " +:+ default_date)]
       | _ :: _ =>
           if gui_libs then []
           else [(str_join newline lines, "NHL Scores " +:+ default_date)]
       end,
       w2) /\
    (gui_libs = false -> shown_window = None) /\
    (gui_libs = true ->
     exists g, shown_window = Some g /\
               length (container g) = length records /\
               pending g = [(0, CbRefreshGames); (1, CbUpdateBackground)]%nat).
Proof.
  intros Hfetch. pose proof (fetch_games_same_length P E _ _ _ _ _ Hfetch) as Hlen.
  unfold startup. rewrite Hfetch.
  destruct lines as [|line lines]; cbn [message_box].
  - destruct records; [|done]. destruct gui_libs; cbn.
    + eexists _, _. split; [reflexivity|]. split; [done|]. intros _. by eexists.
    + eexists _, _. split; [reflexivity|]. split; [done|]. done.
  - assert (Hne : records <> []) by (by destruct records).
    destruct (exists_last Hne) as (front & r & ->).
    destruct gui_libs; cbn [message_box].
    + destruct (initial_display_spec line lines front r (blank_window default_date) w1)
        as (a & h & refs & n & ->).
      eexists _, _. split; [reflexivity|]. split; [done|]. intros _. eexists. split; [done|].
      cbn. split; [|done]. by rewrite !length_app, length_map.
    + eexists _, _. split; [reflexivity|]. split; [done|]. done.
Qed.
End Window.

Lemma refresh_games_lists_records_witness :
  exists g',
    refresh_games (demo_platform true true) (schedule_env finished_response) always_open
                  (blank_window demo_date) empty_world = (Ret tt, g', empty_world) /\
    title g' = "NHL Scores - 2024-01-15" /\
    length (container g') = 1%nat.
Proof.
  destruct (refresh_games_lists_records (demo_platform true true)
              (schedule_env finished_response) always_open (blank_window demo_date)
              empty_world ["AAA vs BBB - 3:2"]
              (snd (entry_of (demo_platform true true) finished_game None None)) []
              empty_world)
    as (g' & Hrun & Htitle & Hrows & _).
  - vm_compute; reflexivity.
  - exists g'. split; [exact Hrun|]. split; [exact Htitle|].
    apply Forall2_length in Hrows. by rewrite <- Hrows.
Defined.

Lemma main_loop_keeps_window_tidy_witness :
  length (auto_timers
            (fst (run_loop (demo_platform true true) (schedule_env finished_response)
                           always_open
                           [ClickLiveGames; Fire 0; Fire 2; ClickLiveGames; PressRefresh]
                           (blank_window demo_date, empty_world)))) <= 1.
Proof.
  assert (Hcover : refs_cover (blank_window demo_date)) by (intros path []).
  pose proof (main_loop_keeps_window_tidy (demo_platform true true)
                (schedule_env finished_response) always_open
                [ClickLiveGames; Fire 0; Fire 2; ClickLiveGames; PressRefresh]
                (blank_window demo_date) empty_world eq_refl Hcover) as Htidy.
  exact (proj1 Htidy).
Defined.

Lemma failed_fetch_ends_auto_refresh_witness :
  exists g',
    step (demo_platform true true) offline_env always_open (Fire 2)
         (live_window, empty_world) = (g', empty_world) /\
    container g' = [] /\ auto_refresh_var g' = true /\ auto_timers g' = [].
Proof.
  apply (failed_fetch_ends_auto_refresh (demo_platform true true) offline_env always_open
           2 live_window empty_world (OtherError "connection refused") empty_world);
    vm_compute; reflexivity.
Defined.

Lemma startup_message_boxes_witness :
  exists shown_window w2,
    startup (demo_platform true true) (schedule_env finished_response) always_open
            false true demo_date empty_world =
      (Ret shown_window, [("AAA vs BBB - 3:2", "NHL Scores 2024-01-15")], w2) /\
    shown_window = None.
Proof.
  destruct (startup_message_boxes (demo_platform true true) (schedule_env finished_response)
              always_open false demo_date empty_world ["AAA vs BBB - 3:2"]
              [snd (entry_of (demo_platform true true) finished_game None None)] empty_world)
    as (sw & w2 & Hrun & Hnone & _).
  - vm_compute; reflexivity.
  - exists sw, w2. split; [exact Hrun|]. by apply Hnone.
Defined.
End NHLwindowFacts.

(** ** More on [convert_logos.py] *)

Module ConvertLogosMore.
Import Py ConvertLogos ConvertNotions.



(** X19: the script ends with status 0 only when Pillow and a converter
    were imported, the directory could be listed and either held no SVG
    file or the final [input()] returned. *)
Theorem main_exit_code_zero_only_if env :
  exit_code (main env) = 0%Z ->
  is_ret (import_pillow env) = true /\
  exists c names,
    select_converter env = Ret (Some c) /\ listdir env = Ret names /\
    (List.filter is_svg names = [] \/ is_ret (input env) = true).
Proof.
  unfold main.
  destruct (import_pillow env) as [[]|e]; [|by destruct (import_error e)].
  destruct (select_converter env) as [[c|]|e]; [|by destruct (input env)|done].
  destruct (listdir env) as [names|e]; [|done].
  destruct (List.filter is_svg names) as [|f files] eqn:Hsvg.
  { intros _. split; [done|]. exists c, names. auto. }
  destruct (convert_all env c (f :: files) names 0 (0, 0, 0)%nat) as [[n_c n_s] n_f].
  cbn [exit_code]. destruct (input env) as [line|e]; [|done].
  intros _. split; [done|]. exists c, names. auto.
Qed.

(** X20: the probe picks the first of cairosvg, svglib and Selenium that can
    be imported: the converter it returns was imported, and no converter
    before it was. *)
Theorem select_converter_first_importable env c :
  select_converter env = Ret (Some c) ->
  is_ret (import_of env c) = true /\
  forall c', rank c' < rank c -> is_ret (import_of env c') = false.
Proof.
  unfold select_converter, try_import.
  destruct (import_cairosvg env) as [[]|e1] eqn:H1.
  { intros [= <-]. cbn. rewrite H1. split; [done|]. intros c' Hlt. cbn in Hlt. lia. }
  destruct (import_or_os_error e1); [|done].
  destruct (import_svglib env) as [[]|e2] eqn:H2.
  { intros [= <-]. cbn. rewrite H2. split; [done|].
    intros [| |] Hlt; cbn in *; try lia. by rewrite H1. }
  destruct (import_or_os_error e2); [|done].
  destruct (import_selenium env) as [[]|e3] eqn:H3.
  { intros [= <-]. cbn. rewrite H3. split; [done|].
    intros [| |] Hlt; cbn in *; try lia; by rewrite ?H1, ?H2. }
  by destruct (import_error e3).
Qed.

(** When every SVG file already has its PNG in the directory, nothing
    is converted: all files are skipped. *)
Lemma convert_all_skips_existing env c files present i n_c n_s n_f :
  Forall (fun f => existsb (String.eqb (str_replace ".svg" ".png" f)) present = true) files ->
  convert_all env c files present i (n_c, n_s, n_f) = (n_c, n_s + length files, n_f).
Proof.
  intros Hall. revert n_s. induction Hall as [|f files Hf _ IH]; intros n_s; cbn [convert_all length].
  - f_equal. f_equal. lia.
  - rewrite Hf, IH. f_equal. f_equal. lia.
Qed.

Lemma replace_go_dotless stem : forall (tail : string),
  dotless stem = true ->
  replace_go ".svg" ".png" 0 (stem +:+ tail) = stem +:+ replace_go ".svg" ".png" 0 tail.
Proof.
  induction stem as [|ch stem IH]; intros tail; [done|].
  cbn [dotless]. intros [Hch Hrest]%andb_true_iff.
  change (String ch stem +:+ tail) with (String ch (stem +:+ tail)).
  cbn [replace_go String.prefix].
  destruct (Ascii.ascii_dec "."%char ch) as [<-|Hne]; [done|].
  change (String ch (replace_go ".svg" ".png" 0 (stem +:+ tail)) =
          String ch (stem +:+ replace_go ".svg" ".png" 0 tail)).
  by rewrite IH.
Qed.

(** The PNG of [<stem>.svg] is [<stem>.png] when the stem has no dot. *)
Lemma png_name_of_svg stem :
  dotless stem = true ->
  str_replace ".svg" ".png" (stem +:+ ".svg") = stem +:+ ".png".
Proof.
  intros Hstem. unfold str_replace. by rewrite replace_go_dotless.
Qed.

(** X21: run on a directory where every logo [<stem>.svg] (a stem without
    dots) already has its [<stem>.png], the script converts nothing and
    counts no failure, whichever libraries are installed. *)
Theorem main_skips_converted_logos env names :
  listdir env = Ret names ->
  (forall f, In f names -> is_svg f = true ->
     exists stem, f = stem +:+ ".svg" /\ dotless stem = true /\
                  In (stem +:+ ".png") names) ->
  converted (main env) = 0 /\ failed (main env) = 0.
Proof.
  intros Hdir Hdone. unfold main.
  destruct (import_pillow env) as [[]|e]; [|by destruct (import_error e)].
  destruct (select_converter env) as [[c|]|e]; [|by destruct (input env)|done].
  rewrite Hdir. destruct (List.filter is_svg names) as [|f files] eqn:Hsvg; [done|].
  rewrite (convert_all_skips_existing env c (f :: files) names 0 0 0 0); [done|].
  rewrite <- Hsvg. apply List.Forall_forall. intros g [Hin Hg]%filter_In.
  destruct (Hdone g Hin Hg) as (stem & -> & Hstem & Hpng).
  rewrite png_name_of_svg by done.
  apply existsb_exists. exists (stem +:+ ".png"). split; [done|]. apply String.eqb_refl.
Qed.


Lemma main_exit_code_zero_only_if_witness :
  is_ret (import_pillow two_svgs_env) = true /\
  exists c names,
    select_converter two_svgs_env = Ret (Some c) /\ listdir two_svgs_env = Ret names /\
    (List.filter is_svg names = [] \/ is_ret (input two_svgs_env) = true).
Proof.
  apply (main_exit_code_zero_only_if two_svgs_env). vm_compute; reflexivity.
Defined.

Lemma select_converter_first_importable_witness :
  is_ret (import_of two_svgs_env Svglib) = true /\
  is_ret (import_of two_svgs_env Cairosvg) = false.
Proof.
  destruct (select_converter_first_importable two_svgs_env Svglib) as [Hc Hbefore].
  - vm_compute; reflexivity.
  - split; [exact Hc|]. apply Hbefore. vm_compute. lia.
Defined.

Lemma main_skips_converted_logos_witness :
  converted (main converted_env) = 0 /\ failed (main converted_env) = 0.
Proof.
  apply (main_skips_converted_logos converted_env ["AAA.svg"; "AAA.png"; "backround.jpg"]).
  - reflexivity.
  - intros f Hin Hsvg. vm_compute in Hin. destruct Hin as [<-|[<-|[<-|[]]]].
    + exists "AAA". split; [reflexivity|]. split; [reflexivity|]. vm_compute. auto.
    + vm_compute in Hsvg. discriminate Hsvg.
    + vm_compute in Hsvg. discriminate Hsvg.
Defined.
End ConvertLogosMore.

(** ** [NHLscores.py] on a standard output that may refuse text *)

Module StdoutFacts.
Import Py NHLscores NHLscoresFacts.

Section Agreement.
Variable K : Stdout.console.
Variable P : platform.
Variable E : environment.
Hypothesis writes_all : forall msg, Stdout.stdout_encodes K msg = true.

Ltac open_both :=
  unfold Stdout.convert_existing, Stdout.download_and_store, Stdout.convert_downloaded,
    Stdout.and_then, Stdout.print_in_try, Stdout.print,
    convert_existing, convert_downloaded, download_and_store,
    go_on, print, emit, requests_get, cairo_svg2png, svglib_convert, write_file,
    bind, ret, lift, set_trace, came_back, now;
  cbn [fst snd fs trace].

Ltac same_path :=
  repeat (rewrite ?writes_all; cbn [fst snd fs trace] in *; case_match; simplify_eq);
  rewrite ?writes_all; cbn [fst snd fs trace] in *;
  try reflexivity;
  try (match goal with H : Stdout.stdout_encodes K _ = false |- _ =>
         rewrite writes_all in H; discriminate H end).

Lemma convert_existing_agrees abbrev w :
  Stdout.convert_existing K P E abbrev w = convert_existing P E abbrev w.
Proof. open_both. same_path. Qed.

Lemma convert_downloaded_agrees abbrev content w :
  Stdout.convert_downloaded K P E abbrev content w = convert_downloaded P E abbrev content w.
Proof. open_both. same_path. Qed.

Lemma download_and_store_agrees abbrev url ext w :
  Stdout.download_and_store K P E abbrev url ext w = download_and_store P E abbrev url ext w.
Proof.
  unfold Stdout.download_and_store, download_and_store, bind.
  destruct (requests_get E url w) as [[[e|content]|e] w1]; [| |reflexivity].
  - unfold Stdout.print, print, emit, ret. by rewrite writes_all.
  - destruct (String.eqb (str_lower ext) ".svg"); [|reflexivity].
    by rewrite convert_downloaded_agrees.
Qed.

Lemma ensure_logo_cached_agrees team_obj w :
  Stdout.ensure_logo_cached K P E team_obj w = ensure_logo_cached P E team_obj w.
Proof.
  unfold Stdout.ensure_logo_cached, ensure_logo_cached.
  destruct (negb _ || negb _); [done|].
  destruct (team_logo_url team_obj); try done.
  unfold bind, lift, path_exists. destruct (urlparse_path P s); [|done].
  destruct (bool_decide _); [done|]. destruct (bool_decide _).
  - apply convert_existing_agrees.
  - apply download_and_store_agrees.
Qed.

Lemma for_each_agrees {A S} (body1 body2 : A -> S -> M S) xs :
  (forall x s w, body1 x s w = body2 x s w) ->
  forall s w, for_each body1 xs s w = for_each body2 xs s w.
Proof.
  intros Hbody. induction xs as [|x xs IH]; intros s w; cbn [for_each]; [done|].
  unfold bind. rewrite Hbody. destruct (body2 x s w) as [[s'|e] w']; [apply IH|done].
Qed.

Lemma process_game_agrees game acc w :
  Stdout.process_game K P E game acc w = process_game P E game acc w.
Proof.
  unfold Stdout.process_game, process_game.
  destruct game as [| | | | |kvs]; [reflexivity..|].
  unfold bind, lift. cbn [py_get].
  destruct (dict_get kvs "awayTeam" (PDict [])) as [| | | | |akvs]; [reflexivity..|].
  destruct (dict_get kvs "homeTeam" (PDict [])) as [| | | | |hkvs]; [reflexivity..|].
  rewrite ensure_logo_cached_agrees.
  destruct (ensure_logo_cached P E (PDict akvs) w) as [[al|e] w1]; [|reflexivity].
  rewrite ensure_logo_cached_agrees. reflexivity.
Qed.

Lemma process_day_agrees date_str day acc w :
  Stdout.process_day K P E date_str day acc w = process_day P E date_str day acc w.
Proof.
  unfold Stdout.process_day, process_day, bind, lift.
  destruct (py_get day "date" PNone) as [day_date|e]; [|reflexivity].
  destruct (negb (py_eqb_str date_str day_date)); cbn [andb]; [reflexivity|].
  destruct (py_contains "games" day) as [[|]|e]; cbn [andb]; [|reflexivity|reflexivity].
  destruct (rbind (py_subscript day "games") py_iter) as [games|e]; [|reflexivity].
  apply for_each_agrees, process_game_agrees.
Qed.

Lemma fetch_games_on_agrees date_str data w :
  Stdout.fetch_games_on K P E date_str data w = fetch_games_on P E date_str data w.
Proof.
  unfold Stdout.fetch_games_on, fetch_games_on, bind, lift.
  destruct (py_contains "gameWeek" data) as [[|]|e]; cbn [andb]; [|reflexivity|reflexivity].
  destruct (py_subscript data "gameWeek") as [week|e]; [|reflexivity].
  destruct (py_truthy week); cbn [andb]; [|reflexivity].
  destruct (py_iter week) as [days|e]; [|reflexivity].
  apply for_each_agrees. intros day acc w0. apply process_day_agrees.
Qed.
End Agreement.

Section Escapes.
Variable K : Stdout.console.
Variable P : platform.
Variable E : environment.

Ltac open_blocks :=
  unfold Stdout.convert_existing, Stdout.download_and_store, Stdout.convert_downloaded,
    Stdout.and_then, Stdout.print_in_try, Stdout.print,
    go_on, requests_get, cairo_svg2png, svglib_convert, write_file,
    bind, ret, lift, set_trace, came_back, now in *;
  cbn [fst snd fs trace] in *.

Ltac each_path :=
  repeat (case_match; cbn [fst snd fs trace] in *; simplify_eq);
  cbn [fst snd fs trace] in *.

Ltac refused :=
  match goal with
  | H : Stdout.stdout_encodes K ?msg = false |- _ =>
      split; [reflexivity|]; exists msg; split; [exact H|];
      first [left; reflexivity | right; reflexivity]
  end.

Lemma convert_existing_escapes abbrev w e :
  fst (Stdout.convert_existing K P E abbrev w) = Raise e ->
  e = UnicodeEncodeError /\
  exists msg, Stdout.stdout_encodes K msg = false /\ Stdout.unguarded_text msg.
Proof.
  unfold Stdout.unguarded_text. open_blocks. each_path; intros; simplify_eq; refused.
Qed.

Lemma download_and_store_escapes abbrev url ext w e :
  fst (Stdout.download_and_store K P E abbrev url ext w) = Raise e ->
  e = UnicodeEncodeError /\
  exists msg, Stdout.stdout_encodes K msg = false /\ Stdout.unguarded_text msg.
Proof.
  unfold Stdout.unguarded_text. open_blocks. each_path; intros; simplify_eq; refused.
Qed.

Lemma convert_existing_gives_up abbrev w r :
  fst (Stdout.convert_existing K P E abbrev w) = Ret r ->
  existsb io_failed (new_events w (snd (Stdout.convert_existing K P E abbrev w))) = false.
Proof.
  assert (Hnew : forall f evs, new_events w {| fs := f; trace := trace w ++ evs |} = evs)
    by apply new_events_mk.
  open_blocks. each_path; intros; simplify_eq;
    repeat (rewrite <- ?app_assoc; cbn [app]);
    rewrite ?Hnew, ?new_events_refl; try reflexivity;
    destruct w; cbn [fs trace]; by rewrite ?new_events_refl.
Qed.

Lemma download_and_store_gives_up abbrev url ext w r :
  fst (Stdout.download_and_store K P E abbrev url ext w) = Ret r ->
  existsb io_failed (new_events w (snd (Stdout.download_and_store K P E abbrev url ext w))) = true ->
  r = None.
Proof.
  pose proof (svg_is_not_raster ext) as Hsvg.
  assert (Hnew : forall f evs, new_events w {| fs := f; trace := trace w ++ evs |} = evs)
    by apply new_events_mk.
  open_blocks. each_path; intros; simplify_eq; try reflexivity;
    repeat (rewrite <- ?app_assoc in *; cbn [app] in * );
    rewrite ?Hnew in *; cbn in *; try congruence; by specialize (Hsvg eq_refl).
Qed.

(** The start of [ensure_logo_cached] does not print: the guard, the
    exceptions of [urlparse] and the two existence checks are as in the
    embedding above. *)
Lemma stdout_ensure_cases team_obj w :
  let abbrev := team_abbrev team_obj in
  match logo_lookup_error P team_obj with
  | Some e => Stdout.ensure_logo_cached K P E team_obj w = (Raise e, w)
  | None =>
      if negb (py_truthy abbrev) || negb (py_truthy (team_logo_url team_obj))
      then Stdout.ensure_logo_cached K P E team_obj w = (Ret None, w)
      else if bool_decide (is_Some (fs w !! png_path_of P abbrev))
      then Stdout.ensure_logo_cached K P E team_obj w = (Ret (Some (png_path_of P abbrev)), w)
      else if bool_decide (is_Some (fs w !! svg_path_of P abbrev))
      then Stdout.ensure_logo_cached K P E team_obj w = Stdout.convert_existing K P E abbrev w
      else exists url path,
          team_logo_url team_obj = PStr url /\ urlparse_path P url = Ret path /\
          Stdout.ensure_logo_cached K P E team_obj w =
            Stdout.download_and_store K P E abbrev url (ext_of P path) w
  end.
Proof.
  cbv zeta. unfold logo_lookup_error, Stdout.ensure_logo_cached.
  destruct (negb _ || negb _) eqn:Hskip; [done|].
  destruct (team_logo_url team_obj) as [| | |url| |] eqn:Hurl; try done.
  destruct (urlparse_path P url) as [path|e] eqn:Hpath; [|done].
  unfold bind, lift, path_exists.
  destruct (bool_decide (is_Some (fs w !! png_path_of _ _))); [done|].
  destruct (bool_decide (is_Some (fs w !! svg_path_of _ _))); [done|].
  by exists url, path.
Qed.

Lemma stdout_ensure_raises team_obj w e :
  logo_lookup_error P team_obj = Some e ->
  Stdout.ensure_logo_cached K P E team_obj w = (Raise e, w).
Proof.
  intros He. pose proof (stdout_ensure_cases team_obj w) as Hc.
  cbv zeta in Hc. by rewrite He in Hc.
Qed.

Lemma escaping_exception team_obj w e w' :
  Stdout.ensure_logo_cached K P E team_obj w = (Raise e, w') ->
  (logo_lookup_error P team_obj = Some e /\ w' = w) \/
  (e = UnicodeEncodeError /\
   exists msg, Stdout.stdout_encodes K msg = false /\ Stdout.unguarded_text msg).
Proof.
  pose proof (stdout_ensure_cases team_obj w) as Hc. cbv zeta in Hc.
  destruct (logo_lookup_error P team_obj) as [e0|].
  { rewrite Hc. intros [= <- <-]. by left. }
  destruct (negb _ || negb _); [by rewrite Hc|].
  destruct (bool_decide _); [by rewrite Hc|].
  destruct (bool_decide _).
  - rewrite Hc. intros Hrun. right.
    apply (convert_existing_escapes (team_abbrev team_obj) w). by rewrite Hrun.
  - destruct Hc as (url & path & _ & _ & ->). intros Hrun. right.
    apply (download_and_store_escapes (team_abbrev team_obj) url (ext_of P path) w).
    by rewrite Hrun.
Qed.

(** X22: on a standard output that may refuse text, a failed download or
    a failed write still gives [None] whenever [ensure_logo_cached]
    returns; an exception that escapes is one of [urlparse] (raised
    before anything is done) or the [UnicodeEncodeError] of a [print] that
    no [try] encloses (a warning of a handler, or the hint of lines
    89-90); so the function returns whenever [urlparse] accepts the URL
    and the standard output can write those texts. *)
Theorem ensure_logo_cached_on_stdout team_obj w :
  (forall r, result_of (Stdout.ensure_logo_cached K P E team_obj) w = Ret r ->
             existsb io_failed (events_of (Stdout.ensure_logo_cached K P E team_obj) w) = true ->
             r = None) /\
  (forall e, result_of (Stdout.ensure_logo_cached K P E team_obj) w = Raise e ->
             (logo_lookup_error P team_obj = Some e /\
              world_after (Stdout.ensure_logo_cached K P E team_obj) w = w) \/
             (e = UnicodeEncodeError /\
              exists msg, Stdout.stdout_encodes K msg = false /\ Stdout.unguarded_text msg)) /\
  (logo_lookup_error P team_obj = None ->
   (forall msg, Stdout.unguarded_text msg -> Stdout.stdout_encodes K msg = true) ->
   is_ret (result_of (Stdout.ensure_logo_cached K P E team_obj) w) = true).
Proof.
  unfold result_of, events_of, world_after. split; [|split].
  - pose proof (stdout_ensure_cases team_obj w) as Hc. cbv zeta in Hc.
    destruct (logo_lookup_error P team_obj) as [e0|]; [by rewrite Hc|].
    destruct (negb _ || negb _); [rewrite Hc; cbn; by rewrite new_events_refl|].
    destruct (bool_decide _); [rewrite Hc; cbn; by rewrite new_events_refl|].
    destruct (bool_decide _).
    + rewrite Hc. intros r Hr Hio.
      by rewrite (convert_existing_gives_up _ _ _ Hr) in Hio.
    + destruct Hc as (url & path & _ & _ & ->). apply download_and_store_gives_up.
  - intros e Hr.
    destruct (Stdout.ensure_logo_cached K P E team_obj w) as [r w'] eqn:Hrun.
    cbn [fst snd] in *. subst r. by apply escaping_exception in Hrun.
  - intros Hok Hwrites.
    destruct (Stdout.ensure_logo_cached K P E team_obj w) as [[r|e] w'] eqn:Hrun; [done|].
    apply escaping_exception in Hrun as [[He _]|(_ & msg & Hno & Htext)]; [congruence|].
    rewrite (Hwrites msg Htext) in Hno. discriminate Hno.
Qed.

(** *** The walk of [fetch_games] *)

Lemma stdout_process_game_bad game acc w :
  game_ok P game = false ->
  exists e w', Stdout.process_game K P E game acc w = (Raise e, w').
Proof.
  destruct game as [| | | | |kvs]; try (intros _; by eexists _, _).
  cbn [game_ok game_team]. unfold team_ok, Stdout.process_game.
  unfold bind at 1 2. cbn [py_get lift].
  destruct (dict_get kvs "awayTeam" (PDict [])) as [| | | | |akvs] eqn:Haway;
    try (intros _; by eexists _, _).
  destruct (dict_get kvs "homeTeam" (PDict [])) as [| | | | |hkvs] eqn:Hhome;
    try (intros _; by eexists _, _).
  unfold bind at 1 2 3 4 5 6. cbn [py_get lift].
  destruct (logo_lookup_error P (PDict akvs)) as [e|] eqn:Hea.
  { intros _. unfold bind. rewrite (stdout_ensure_raises _ _ _ Hea). by eexists _, _. }
  destruct (logo_lookup_error P (PDict hkvs)) as [e|] eqn:Heh; [|done].
  intros _. unfold bind.
  destruct (Stdout.ensure_logo_cached K P E (PDict akvs) w) as [[al|e1] w1];
    [|by eexists _, _].
  rewrite (stdout_ensure_raises _ _ _ Heh). by eexists _, _.
Qed.

Lemma stdout_for_each_games_bad games :
  forallb (game_ok P) games = false ->
  forall acc w, exists e w', for_each (Stdout.process_game K P E) games acc w = (Raise e, w').
Proof.
  induction games as [|g games IH]; [done|]. cbn [forallb for_each]. intros Hbad acc w.
  unfold bind.
  destruct (game_ok P g) eqn:Hg; cbn [andb] in Hbad.
  - destruct (Stdout.process_game K P E g acc w) as [[acc'|e] w1]; [|by eexists _, _].
    apply IH, Hbad.
  - destruct (stdout_process_game_bad g acc w Hg) as (e & w1 & ->). by eexists _, _.
Qed.

Lemma stdout_process_day_bad date_str day acc w :
  day_ok P date_str day = false ->
  exists e w', Stdout.process_day K P E date_str day acc w = (Raise e, w').
Proof.
  destruct day as [| | | | |kvs]; try (intros _; by eexists _, _).
  cbn [day_ok]. unfold Stdout.process_day. unfold bind at 1. cbn [py_get lift].
  destruct (py_eqb_str date_str _); cbn [negb]; [|done].
  unfold bind at 1. cbn [py_contains lift].
  destruct (dict_lookup "games" kvs) as [v|] eqn:Hgames; cbn; [|done].
  unfold bind. cbn [lift]. rewrite Hgames. cbn [rbind].
  destruct v as [| | |s|games|gkvs]; cbn [games_ok is_empty_iterable];
    try (intros _; by eexists _, _).
  - destruct s; [done|]. intros _. by eexists _, _.
  - intros Hbad. cbn [py_iter]. apply stdout_for_each_games_bad, Hbad.
  - destruct gkvs; [done|]. intros _. by eexists _, _.
Qed.

Lemma stdout_for_each_days_bad date_str days :
  forallb (day_ok P date_str) days = false ->
  forall acc w,
  exists e w', for_each (Stdout.process_day K P E date_str) days acc w = (Raise e, w').
Proof.
  induction days as [|d days IH]; [done|]. cbn [forallb for_each]. intros Hbad acc w.
  unfold bind.
  destruct (day_ok P date_str d) eqn:Hd; cbn [andb] in Hbad.
  - destruct (Stdout.process_day K P E date_str d acc w) as [[acc'|e] w1]; [|by eexists _, _].
    apply IH, Hbad.
  - destruct (stdout_process_day_bad date_str d acc w Hd) as (e & w1 & ->). by eexists _, _.
Qed.

Lemma stdout_fetch_games_on_bad date_str data w :
  response_ok P date_str data = false ->
  exists e w', Stdout.fetch_games_on K P E date_str data w = (Raise e, w').
Proof.
  unfold Stdout.fetch_games_on, response_ok.
  destruct data as [| | |s|xs|kvs]; try (intros _; by eexists _, _).
  - intros Hs%negb_false_iff. unfold bind. cbn [py_contains lift]. rewrite Hs.
    by eexists _, _.
  - intros Hs%negb_false_iff. unfold bind. cbn [py_contains lift]. rewrite Hs.
    by eexists _, _.
  - unfold bind at 1. cbn [py_contains lift].
    destruct (dict_lookup "gameWeek" kvs) as [v|] eqn:Hweek; [|done].
    rewrite bool_decide_eq_true_2 by eauto.
    unfold bind at 1. cbn [py_subscript lift]. rewrite Hweek. cbn [andb].
    destruct v as [|[|]|n|s|days|wkvs]; cbn [negb py_truthy]; try done;
      try (intros _; by eexists _, _).
    + intros Hn%negb_false_iff. rewrite Hn. by eexists _, _.
    + destruct s; [done|]. intros _. by eexists _, _.
    + destruct days as [|d days]; [done|]. intros Hbad. unfold bind. cbn [py_iter lift].
      apply (stdout_for_each_days_bad date_str (d :: days) Hbad).
    + destruct wkvs; [done|]. intros _. by eexists _, _.
Qed.

(** X11: [fetch_games] returns only on the responses [response_ok]
    describes, whatever the world, the network, the converters and the
    standard output; when the standard output can write every text it
    returns on each of them. *)
Theorem fetch_games_returns_exactly date_str data w :
  ((exists lines records w',
       Stdout.fetch_games_on K P E date_str data w = (Ret (lines, records), w')) ->
   response_ok P date_str data = true) /\
  ((forall msg, Stdout.stdout_encodes K msg = true) ->
   response_ok P date_str data = true ->
   exists lines records w',
     Stdout.fetch_games_on K P E date_str data w = (Ret (lines, records), w')).
Proof.
  split.
  - intros (lines & records & w' & Hrun).
    destruct (response_ok P date_str data) eqn:Hok; [done|].
    destruct (stdout_fetch_games_on_bad date_str data w Hok) as (e & w1 & Hbad). congruence.
  - intros Hall Hok. rewrite (fetch_games_on_agrees K P E Hall).
    destruct (fetch_games_on_ok P E date_str data w Hok) as (es & w' & Hrun & _). eauto.
Qed.
End Escapes.


(** C5 fails on the code: the download of the logo fails, the handler of
    lines 98-100 prints its warning, the standard output (ASCII) cannot
    write the abbreviation, and the [UnicodeEncodeError] of that [print]
    leaves [ensure_logo_cached] and then [fetch_games]; on a standard
    output that writes every text the same call returns [None]. *)
Lemma failed_download_escapes_through_warning :
  Stdout.ensure_logo_cached Stdout.ascii_console (demo_platform true true) offline_env
      Stdout.accented_team empty_world =
    (Raise UnicodeEncodeError, {| fs := ∅; trace := [EvHttpGet jpg_url false] |}) /\
  Stdout.fetch_games_on Stdout.ascii_console (demo_platform true true) offline_env demo_date
      Stdout.accented_response empty_world =
    (Raise UnicodeEncodeError, {| fs := ∅; trace := [EvHttpGet jpg_url false] |}) /\
  result_of (Stdout.ensure_logo_cached Stdout.wide_console (demo_platform true true) offline_env
               Stdout.accented_team) empty_world = Ret None.
Proof. vm_compute. done. Qed.

Lemma ensure_logo_cached_on_stdout_witness :
  is_ret (result_of (Stdout.ensure_logo_cached Stdout.wide_console (demo_platform true true)
                       offline_env Stdout.accented_team) empty_world) = true.
Proof.
  apply (proj2 (proj2 (ensure_logo_cached_on_stdout Stdout.wide_console
                         (demo_platform true true) offline_env
                         Stdout.accented_team empty_world))).
  - vm_compute; reflexivity.
  - intros msg _. reflexivity.
Defined.

Lemma fetch_games_returns_exactly_witness :
  exists lines records w',
    Stdout.fetch_games_on Stdout.wide_console (demo_platform true true) offline_env demo_date
        Stdout.accented_response empty_world = (Ret (lines, records), w').
Proof.
  apply (proj2 (fetch_games_returns_exactly Stdout.wide_console (demo_platform true true)
                  offline_env demo_date Stdout.accented_response empty_world)).
  - intros msg. reflexivity.
  - vm_compute; reflexivity.
Defined.

End StdoutFacts.
